(** * YahooFinanceScraper: a shallow embedding of [main.py]

    The scraper drives a browser through Selenium.  The browser is the
    environment: every call into it either returns a value or raises.  The
    embedding keeps the control flow of the Python methods (the [try] blocks,
    the order in which cells are read, the retry recursion, the generator of
    [run]) and takes the answers of the browser from an oracle carried by the
    driver state.

    Conventions.
    - Page text is a [string]; a character is an 8-bit code point.
    - A raised exception is a value of [exn]; only subclasses of Python's
      [Exception] are modelled (interpreter signals such as
      [KeyboardInterrupt] are outside the model).
    - The interpreter's recursion limit belongs to the environment: a call
      that finds the stack full raises [RecursionError], and this is one of
      the answers a call can get ([recursion_limit] says at which depth of
      the retry this happens).
    - [all_data], the list that [run] accumulates into and yields, lives in a
      heap of list objects, because the caller receives a reference to it.
      Lists that never escape ([data] in [scrape_current_page]) are values. *)

From stdpp Require Import base option list strings gmap.
From Stdlib Require Import Ascii.

Open Scope string_scope.
Open Scope list_scope.
Open Scope nat_scope.

(** ** Exceptions and the error monad *)

Inductive exn : Type :=
| TimeoutException
| StaleElementReferenceException
| NoSuchElementException
| WebDriverException
| TypeError
| IndexError
| RecursionError.

Global Instance exn_eq_dec : EqDecision exn.
Proof. solve_decision. Defined.

(** The outcome of a call that may raise. *)
Inductive result (A : Type) : Type :=
| Raise (e : exn)
| Return (a : A).
Arguments Raise {A} e.
Arguments Return {A} a.

Global Instance result_ret : MRet result := @Return.
Global Instance result_bind : MBind result := λ A B k r,
  match r with
  | Raise e => Raise e
  | Return a => k a
  end.

Definition raises {A} (r : result A) : Prop := exists e, r = Raise e.

(** ** Python string primitives used by the scraper *)

(** [str.isspace] on one character, for code points below 256. *)
Definition is_space (a : ascii) : bool :=
  let n := nat_of_ascii a in
  (((9 <=? n) && (n <=? 13)) || ((28 <=? n) && (n <=? 32))
   || (n =? 133) || (n =? 160))%nat.

Fixpoint lstrip (s : string) : string :=
  match s with
  | EmptyString => EmptyString
  | String a s' => if is_space a then lstrip s' else s
  end.

Fixpoint rstrip (s : string) : string :=
  match s with
  | EmptyString => EmptyString
  | String a s' =>
      match rstrip s' with
      | EmptyString => if is_space a then EmptyString else String a EmptyString
      | r => String a r
      end
  end.

(** [s.strip()] *)
Definition strip (s : string) : string := rstrip (lstrip s).

(** [needle in hay] on strings. *)
Fixpoint contains (needle hay : string) : bool :=
  String.prefix needle hay ||
  match hay with
  | EmptyString => false
  | String _ hay' => contains needle hay'
  end.

(** Truth value of [None] or a string: [if first_row_check:]. *)
Definition truthy (o : option string) : bool :=
  match o with
  | None => false
  | Some s => negb (String.eqb s "")
  end.

(** ** Web elements, as the browser answers for them *)

(** A [td] element: what [.text] gives. *)
Record Cell := { cell_text : result string }.

(** A [tr] element: what [.text] and [.find_elements(By.TAG_NAME, "td")]
    give. *)
Record Row := {
  row_text : result string;
  row_cells : result (list Cell)
}.

(** The "next" button: what [.get_attribute("class")] gives ([None] when the
    attribute is missing). *)
Record Button := { class_attr : result (option string) }.

(** What one extraction attempt sees: the outcome of
    [_wait_visible(TABLE)] and of [find_elements] on [TABLE_ROWS]. *)
Record TableView := {
  table_visible : result unit;
  table_rows : result (list Row)
}.

(** ** RawRow: the dict built for one table row *)

Abbreviation RawRow := (gmap string string).

(** [cols[i].text.strip()]; an index out of range raises [IndexError]. *)
Definition col_text (cols : list Cell) (i : nat) : result string :=
  match cols !! i with
  | None => Raise IndexError
  | Some c => t ← cell_text c; Return (strip t)
  end.

(** The dict display of lines 159-167; the values are evaluated in source
    order, and the first one that raises aborts the display. *)
Definition stock_data (cols : list Cell) : result RawRow :=
  symbol ← col_text cols 0;
  name ← col_text cols 1;
  price ← col_text cols 3;
  change ← col_text cols 4;
  volume ← col_text cols 6;
  market_cap ← col_text cols 8;
  pe_ratio ← col_text cols 9;
  Return (<["pe_ratio" := pe_ratio]>
          (<["market_cap" := market_cap]>
           (<["volume" := volume]>
            (<["change" := change]>
             (<["price" := price]>
              (<["name" := name]>
               (<["symbol" := symbol]> (∅ : RawRow)))))))).

(** ** scrape_current_page *)

(** The [for row in rows] loop.  [data] is the list built so far; the second
    component is the exception that left the loop, if any.  [data] keeps its
    content when an exception leaves the loop, as the Python list does. *)
Fixpoint scrape_rows (rows : list Row) (data : list RawRow)
  : list RawRow * option exn :=
  match rows with
  | [] => (data, None)
  | row :: rest =>
      match row_cells row with
      | Raise e => (data, Some e)
      | Return cols =>
          if (length cols <? 10)%nat then scrape_rows rest data
          else match stock_data cols with
               | Raise e => (data, Some e)
               | Return sd => scrape_rows rest (data ++ [sd])
               end
      end
  end.

(** The body of the [try] of [scrape_current_page], started with
    [data = []]. *)
Definition scrape_attempt (v : TableView) : list RawRow * option exn :=
  match table_visible v with
  | Raise e => ([], Some e)
  | Return _ =>
      match table_rows v with
      | Raise e => ([], Some e)
      | Return rows => scrape_rows rows []
      end
  end.

(** ** The driver and the browser behind it *)

(** [_wait_for_page_load]: the outcome of the wait on [document.readyState],
    and of reading [driver.current_url] for the warning of line 85. *)
Record PageLoad := {
  ready_state : result unit;
  current_url : result string
}.

(** The outcomes of the browser calls of [navigate_to_most_active], in
    source order. *)
Record NavView := {
  nav_get : result unit;
  nav_load_root : PageLoad;
  nav_container : result unit;
  nav_markets : result unit;
  nav_hover_markets : result unit;
  nav_stocks : result unit;
  nav_hover_stocks : result unit;
  nav_trending : result unit;
  nav_trending_click : result unit;
  nav_load_trending : PageLoad;
  nav_tab_clickable : result unit;
  nav_tab_scroll : result unit;
  nav_tab_click : result unit;
  nav_load_tab : PageLoad
}.

(** What one call of [go_to_next_page] sees: [find_elements] on
    [TABLE_ROWS], [_wait_clickable(NEXT_BUTTON, timeout=5)], the two
    [execute_script] calls, and [find_elements] on [TABLE_ROWS] at each poll
    that the ten-second wait of lines 203-205 makes before it gives up. *)
Record NextView := {
  first_rows : result (list Row);
  next_button : result Button;
  scroll_script : result unit;
  click_script : result unit;
  change_polls : list (result (list Row))
}.

(** Everything the browser can be asked at one moment. *)
Record Observation := {
  nav_view : NavView;
  table_view : TableView;
  next_view : NextView;
  remote_quit : result unit
}.

(** [self.driver]: a clock, the browser's answers at each moment, whether the
    session is alive, and how often [quit] has run.  Every method that talks
    to the browser reads the answers of the current moment and moves the
    clock on by one. *)
Record Driver := {
  tick : nat;
  world : nat -> Observation;
  session_open : bool;
  quit_calls : nat
}.

Definition observe (d : Driver) : Observation := world d (tick d).

Definition advance (d : Driver) : Driver :=
  {| tick := S (tick d); world := world d;
     session_open := session_open d; quit_calls := quit_calls d |}.

(** [scrape_current_page].  A stale element makes the method sleep and call
    itself; any other exception is logged and [data], as far as it was
    built, is returned.  The method itself never raises.  [fuel] bounds the
    number of attempts that the definition follows; [None] means that more
    attempts than that are needed.  The method has no bound of its own: the
    recursion ends with the first attempt that meets no stale element, and
    under an interpreter, whose stack is finite, that is at the latest the
    attempt whose [try] is cut short by a [RecursionError]. *)
Fixpoint scrape_current_page (fuel : nat) (d : Driver)
  : option (list RawRow * Driver) :=
  match fuel with
  | 0 => None
  | S fuel' =>
      match scrape_attempt (table_view (observe d)) with
      | (_, Some StaleElementReferenceException) =>
          scrape_current_page fuel' (advance d)
      | (data, _) => Some (data, advance d)
      end
  end.

(** ** go_to_next_page *)

(** [_has_table_changed], on the rows found at one poll. *)
Definition _has_table_changed (old_first_row_text : string)
    (poll : result (list Row)) : result bool :=
  match
    rows ← poll;
    match rows with
    | [] => Return false
    | r :: _ => t ← row_text r;
                Return (negb (String.eqb t old_first_row_text))
    end
  with
  | Raise StaleElementReferenceException => Return false
  | r => r
  end.

(** [WebDriverWait(driver, 10).until(method)] over the polls that fit in the
    timeout: a true value ends the wait, [NoSuchElementException] is ignored,
    any other exception leaves the wait, and running out of polls raises
    [TimeoutException]. *)
Fixpoint until (polls : list (result bool)) : result unit :=
  match polls with
  | [] => Raise TimeoutException
  | Return true :: _ => Return tt
  | Return false :: rest => until rest
  | Raise NoSuchElementException :: rest => until rest
  | Raise e :: _ => Raise e
  end.

(** [first_rows[0].text if first_rows else None] *)
Definition first_row_check (rows : list Row) : result (option string) :=
  match rows with
  | [] => Return None
  | r :: _ => t ← row_text r; Return (Some t)
  end.

(** ["disabled" in btn.get_attribute("class")]; [in] on [None] raises
    [TypeError]. *)
Definition is_disabled (btn : Button) : result bool :=
  cls ← class_attr btn;
  match cls with
  | None => Raise TypeError
  | Some c => Return (contains "disabled" c)
  end.

(** The wait of lines 202-205. *)
Definition wait_for_change (v : NextView) (fp : option string) : result unit :=
  match fp with
  | Some old =>
      if truthy fp then until (map (_has_table_changed old) (change_polls v))
      else Return tt
  | None => Return tt
  end.

(** The body of the [try] of [go_to_next_page]. *)
Definition go_to_next_page_try (v : NextView) : result bool :=
  rows ← first_rows v;
  fp ← first_row_check rows;
  btn ← next_button v;
  disabled ← is_disabled btn;
  if disabled : bool then Return false
  else
    _ ← scroll_script v;
    _ ← click_script v;
    _ ← wait_for_change v fp;
    Return true.

(** [go_to_next_page]: both [except] clauses return [False]. *)
Definition go_to_next_page (d : Driver) : bool * Driver :=
  (match go_to_next_page_try (next_view (observe d)) with
   | Raise TimeoutException => false
   | Raise _ => false
   | Return b => b
   end,
   advance d).

(** ** navigate_to_most_active *)

(** [_wait_for_page_load]: a timeout is logged, with the current URL, and
    swallowed; anything else propagates. *)
Definition _wait_for_page_load (p : PageLoad) : result unit :=
  match ready_state p with
  | Raise TimeoutException => _ ← current_url p; Return tt
  | r => r
  end.

(** [_safe_click]: the handler logs and raises again. *)
Definition _safe_click (clickable scroll click : result unit) : result unit :=
  _ ← clickable; _ ← scroll; click.

Definition navigate_try (v : NavView) : result unit :=
  _ ← nav_get v;
  _ ← _wait_for_page_load (nav_load_root v);
  _ ← nav_container v;
  _ ← nav_markets v;
  _ ← nav_hover_markets v;
  _ ← nav_stocks v;
  _ ← nav_hover_stocks v;
  _ ← nav_trending v;
  _ ← nav_trending_click v;
  _ ← _wait_for_page_load (nav_load_trending v);
  _ ← _safe_click (nav_tab_clickable v) (nav_tab_scroll v) (nav_tab_click v);
  _wait_for_page_load (nav_load_tab v).

(** [navigate_to_most_active]: every exception is logged and raised again. *)
Definition navigate_to_most_active (d : Driver) : result unit * Driver :=
  (navigate_try (nav_view (observe d)), advance d).

(** ** The heap of list objects, and the scraper state *)

(** A location names a list object; the heap holds the current content of
    each list object. *)
Definition loc := nat.
Abbreviation Heap := (list (list RawRow)).

(** [[]]: a new, empty list object. *)
Definition alloc (h : Heap) : loc * Heap := (length h, h ++ [[]]).

(** The present content of a list object. *)
Definition deref (h : Heap) (l : loc) : list RawRow := default [] (h !! l).

(** [xs.extend(ys)]: the object at [l] is changed in place. *)
Definition extend (h : Heap) (l : loc) (ys : list RawRow) : Heap :=
  <[l := deref h l ++ ys]> h.

(** The scraper object with the heap it runs in. *)
Record State := {
  drv : Driver;
  heap : Heap
}.

(** [webdriver.Chrome.quit]: the remote quit command runs inside a [try]
    whose handler swallows every [Exception]; the driver service is then
    stopped.  The session is gone afterwards in either case. *)
Definition quit (d : Driver) : result unit * Driver :=
  let d' := {| tick := S (tick d); world := world d;
               session_open := false; quit_calls := S (quit_calls d) |} in
  match remote_quit (observe d) with
  | Raise _ => (Return tt, d')
  | Return _ => (Return tt, d')
  end.

(** [close].  The guard [if self.driver:] always holds: [self.driver] is set
    once, in [__init__], to a driver object, and is never cleared. *)
Definition close (s : State) : result unit * State :=
  let '(r, d) := quit (drv s) in
  (r, {| drv := d; heap := heap s |}).

(** ** run, a generator *)

(** The tuple of line 249.  The third component is the list object itself,
    not a copy of it. *)
Record RunProgress := {
  pageNumber : nat;
  cumulativeRowCount : nat;
  rowsSoFar : loc
}.

(** Where the generator stands: not started, suspended at the [yield], or
    returned. *)
Inductive Pc : Type := Created | Suspended | Finished.

(** The generator object: its position, its locals and the state it works
    on. *)
Record Gen := {
  pc : Pc;
  all_data : loc;
  page_num : nat;
  st : State
}.

(** What one [next()] gives the caller.  [Diverges] stands for a call that
    does not come back within the given fuel. *)
Inductive Signal : Type :=
| Yield (ev : RunProgress)
| StopIteration
| Raised (e : exn)
| Diverges.

(** [scraper.run()]: creating the generator runs none of its body. *)
Definition run (s : State) : Gen :=
  {| pc := Created; all_data := 0; page_num := 0; st := s |}.

(** Leaving the [try]: the [finally] clause closes the browser, and the
    generator returns.  An exception out of [close] would reach the
    caller. *)
Definition finish (g : Gen) : Signal * Gen :=
  let '(r, s) := close (st g) in
  (match r with Raise e => Raised e | Return _ => StopIteration end,
   {| pc := Finished; all_data := all_data g; page_num := page_num g;
      st := s |}).

(** Lines 243-249: one page is scraped, [all_data] is extended in place, and
    the progress tuple is yielded. *)
Definition loop_body (fuel : nat) (g : Gen) : Signal * Gen :=
  match scrape_current_page fuel (drv (st g)) with
  | None => (Diverges, g)
  | Some (page_data, d) =>
      let h := extend (heap (st g)) (all_data g) page_data in
      (Yield {| pageNumber := page_num g;
                cumulativeRowCount := length (deref h (all_data g));
                rowsSoFar := all_data g |},
       {| pc := Suspended; all_data := all_data g; page_num := page_num g;
          st := {| drv := d; heap := h |} |})
  end.

(** [next(gen)]. *)
Definition gen_next (fuel : nat) (g : Gen) : Signal * Gen :=
  match pc g with
  | Created =>
      let '(l, h) := alloc (heap (st g)) in
      let '(r, d) := navigate_to_most_active (drv (st g)) in
      let g1 := {| pc := Created; all_data := l; page_num := 1;
                   st := {| drv := d; heap := h |} |} in
      match r with
      | Raise _ => finish g1
      | Return _ => loop_body fuel g1
      end
  | Suspended =>
      let '(advanced, d) := go_to_next_page (drv (st g)) in
      let s := {| drv := d; heap := heap (st g) |} in
      if advanced : bool then
        loop_body fuel {| pc := Suspended; all_data := all_data g;
                          page_num := S (page_num g); st := s |}
      else
        finish {| pc := Suspended; all_data := all_data g;
                  page_num := page_num g; st := s |}
  | Finished => (StopIteration, g)
  end.

(** How a [for ... in scraper.run()] loop ended. *)
Inductive Status : Type :=
| Completed
| Escaped (e : exn)
| Stuck
| Unfinished.

(** The caller's loop [for page, total, data in scraper.run(): ...], for at
    most [n] calls of [next].  Each tuple is recorded with the generator as
    it stood when the tuple was handed over. *)
Fixpoint consume (n fuel : nat) (g : Gen)
  : list (RunProgress * Gen) * Status * Gen :=
  match n with
  | 0 => ([], Unfinished, g)
  | S n' =>
      match gen_next fuel g with
      | (Yield ev, g') =>
          let '(evs, status, g'') := consume n' fuel g' in
          ((ev, g') :: evs, status, g'')
      | (StopIteration, g') => ([], Completed, g')
      | (Raised e, g') => ([], Escaped e, g')
      | (Diverges, g') => ([], Stuck, g')
      end
  end.

(** ** Building concrete pages *)

(** A readable cell, a readable row of such cells, a visible table. *)
Definition td (s : string) : Cell := {| cell_text := Return s |}.

Definition tr (cells : list string) : Row :=
  {| row_text := Return (String.concat " " cells);
     row_cells := Return (map td cells) |}.

Definition table (rows : list Row) : TableView :=
  {| table_visible := Return tt; table_rows := Return rows |}.

(** A row whose reference went stale. *)
Definition stale_tr : Row :=
  {| row_text := Raise StaleElementReferenceException;
     row_cells := Raise StaleElementReferenceException |}.

(** A navigation in which every step succeeds. *)
Definition loaded : PageLoad :=
  {| ready_state := Return tt; current_url := Return "https://finance.yahoo.com/" |}.

Definition nav_ok : NavView :=
  {| nav_get := Return tt; nav_load_root := loaded;
     nav_container := Return tt; nav_markets := Return tt;
     nav_hover_markets := Return tt; nav_stocks := Return tt;
     nav_hover_stocks := Return tt; nav_trending := Return tt;
     nav_trending_click := Return tt; nav_load_trending := loaded;
     nav_tab_clickable := Return tt; nav_tab_scroll := Return tt;
     nav_tab_click := Return tt; nav_load_tab := loaded |}.

(** The "next" control is not there: the clickable wait times out. *)
Definition no_next (rows : list Row) : NextView :=
  {| first_rows := Return rows; next_button := Raise TimeoutException;
     scroll_script := Return tt; click_script := Return tt;
     change_polls := [] |}.

(** The "next" control works, and the polls after the click see [polls]. *)
Definition next_ok (rows : list Row) (polls : list (list Row)) : NextView :=
  {| first_rows := Return rows;
     next_button := Return {| class_attr := Return (Some "icon-btn") |};
     scroll_script := Return tt; click_script := Return tt;
     change_polls := map Return polls |}.

Definition obs (n : NavView) (t : TableView) (x : NextView) : Observation :=
  {| nav_view := n; table_view := t; next_view := x;
     remote_quit := Return tt |}.

(** A fresh driver over the given browser behaviour. *)
Definition new_driver (w : nat -> Observation) : Driver :=
  {| tick := 0; world := w; session_open := true; quit_calls := 0 |}.

Definition new_state (w : nat -> Observation) : State :=
  {| drv := new_driver w; heap := [] |}.

(** The rows of the scenario: two stock rows around a three-cell row. *)
Definition aapl : list string :=
  ["AAPL "; "Apple Inc."; ""; "189.84"; "+1.12"; "+0.59%"; "52.1M"; "55.2M";
   "2.95T"; "31.02"; ""; ""].
Definition spacer : list string := ["ad"; ""; ""].
Definition msft : list string :=
  ["MSFT"; " Microsoft Corporation"; ""; "415.10"; "-2.05"; "-0.49%"; "20.3M";
   "22.0M"; "3.08T"; "36.40"].
Definition nvda : list string :=
  ["NVDA"; "NVIDIA Corporation"; ""; "120.01"; "+3.00"; "+2.56%"; "310.0M";
   "290.5M"; "2.95T"; "70.11"].

(** The driver looking at the page of the scenario. *)
Definition scenario_driver : Driver :=
  new_driver (fun _ => obs nav_ok (table [tr aapl; tr spacer; tr msft])
                           (no_next [])).


(** The [i]-th extraction attempt from now on. *)
Definition attempt_at (d : Driver) (i : nat) : list RawRow * option exn :=
  scrape_attempt (table_view (world d (tick d + i))).



(** A pagination step in which the "next" control is present, clickable and
    enabled, but the first table row went stale before its text was read. *)
Definition stale_first_row_next : NextView :=
  {| first_rows := Return [stale_tr];
     next_button := Return {| class_attr := Return (Some "icon-btn") |};
     scroll_script := Return tt; click_script := Return tt;
     change_polls := [Return [tr msft]] |}.

(** The driver of that step, and one about to move from the scenario page to
    a second page. *)
Definition stale_first_row_driver : Driver :=
  new_driver (fun _ => obs nav_ok (table []) stale_first_row_next).

Definition advancing_driver : Driver :=
  new_driver (fun _ => obs nav_ok (table [])
                           (next_ok [tr aapl; tr spacer; tr msft]
                                    [[tr aapl]; [tr nvda]])).

(** Some browser call made by [go_to_next_page] raises [e]. *)
Definition next_page_failure (v : NextView) (e : exn) : Prop :=
  first_rows v = Raise e \/
  (exists rows, first_rows v = Return rows /\ first_row_check rows = Raise e) \/
  next_button v = Raise e \/
  (exists btn, next_button v = Return btn /\ is_disabled btn = Raise e) \/
  scroll_script v = Raise e \/
  click_script v = Raise e \/
  (exists rows fp, first_rows v = Return rows /\
                   first_row_check rows = Return fp /\
                   wait_for_change v fp = Raise e).

(** A listing of three pages: the moments are the navigation, then, for
    each page, its extraction and the pagination step that follows it, and
    last the quit. *)
Definition three_pages : nat -> Observation :=
  fun t =>
    match t with
    | 1 => obs nav_ok (table [tr aapl; tr spacer]) (no_next [])
    | 2 => obs nav_ok (table []) (next_ok [tr aapl; tr spacer]
                                          [[tr aapl; tr spacer]; [tr msft]])
    | 3 => obs nav_ok (table [tr msft]) (no_next [])
    | 4 => obs nav_ok (table []) (next_ok [tr msft] [[tr nvda]])
    | 5 => obs nav_ok (table [tr nvda]) (no_next [])
    | _ => obs nav_ok (table []) (no_next [tr nvda])
    end.

(** A site whose "Markets" menu never shows up. *)
Definition no_markets_menu : nat -> Observation :=
  fun _ =>
    obs {| nav_get := Return tt; nav_load_root := loaded;
           nav_container := Return tt; nav_markets := Raise TimeoutException;
           nav_hover_markets := Return tt; nav_stocks := Return tt;
           nav_hover_stocks := Return tt; nav_trending := Return tt;
           nav_trending_click := Return tt; nav_load_trending := loaded;
           nav_tab_clickable := Return tt; nav_tab_scroll := Return tt;
           nav_tab_click := Return tt; nav_load_tab := loaded |}
        (table []) (no_next []).

(** The shape of a stream of progress tuples that follows page [p], content
    [prev] of the accumulator [l], and [q] quits: page numbers go up by one,
    the accumulator only grows at its end, each count is the length of the
    accumulator at the moment of the [yield], every tuple carries [l], and
    the browser is not closed in between. *)
Fixpoint progress_from (p : nat) (prev : list RawRow) (q : nat) (l : loc)
    (evs : list (RunProgress * Gen)) : Prop :=
  match evs with
  | [] => True
  | (ev, g) :: rest =>
      pageNumber ev = S p /\
      rowsSoFar ev = l /\
      prev `prefix_of` deref (heap (st g)) l /\
      cumulativeRowCount ev = length (deref (heap (st g)) l) /\
      quit_calls (drv (st g)) = q /\
      progress_from (S p) (deref (heap (st g)) l) q l rest
  end.

(** What a [next()] can do to a generator: not come back, return after
    closing the browser once, or yield the next tuple. *)
Definition next_spec (fuel : nat) (g : Gen) (p : nat) (prev : list RawRow)
    (l : loc) : Prop :=
  (exists g', gen_next fuel g = (Diverges, g')) \/
  (exists g',
      gen_next fuel g = (StopIteration, g') /\ pc g' = Finished /\
      quit_calls (drv (st g')) = S (quit_calls (drv (st g))) /\
      session_open (drv (st g')) = false) \/
  (exists ev g',
      gen_next fuel g = (Yield ev, g') /\
      pc g' = Suspended /\ all_data g' = l /\ page_num g' = S p /\
      pageNumber ev = S p /\ rowsSoFar ev = l /\
      prev `prefix_of` deref (heap (st g')) l /\
      cumulativeRowCount ev = length (deref (heap (st g')) l) /\
      quit_calls (drv (st g')) = quit_calls (drv (st g))).

(** ** Notions used to state further properties *)

(** The keys of a RawRow. *)
Definition seven_keys : gset string :=
  {[ "symbol"; "name"; "price"; "change"; "volume"; "market_cap";
     "pe_ratio" ]}.

(** White space at the front, or at the back, of a text. *)
Definition starts_with_space (s : string) : bool :=
  match s with
  | EmptyString => false
  | String a _ => is_space a
  end.

Fixpoint ends_with_space (s : string) : bool :=
  match s with
  | EmptyString => false
  | String a EmptyString => is_space a
  | String _ s' => ends_with_space s'
  end.

(** The shape of a RawRow: the seven keys, each with a trimmed text. *)
Definition well_formed (rr : RawRow) : Prop :=
  dom rr = seven_keys /\
  forall k v, rr !! k = Some v ->
              starts_with_space v = false /\ ends_with_space v = false.


(** A poll of the change wait that does not show a new first row: no rows,
    a first row that still reads [old], or a stale or missing element. *)
Definition unchanged (old : string) (poll : result (list Row)) : Prop :=
  poll = Return [] \/
  poll = Raise StaleElementReferenceException \/
  poll = Raise NoSuchElementException \/
  exists r rest,
    poll = Return (r :: rest) /\
    (row_text r = Return old \/
     row_text r = Raise StaleElementReferenceException \/
     row_text r = Raise NoSuchElementException).

(** The callers' loop of [main.py], lines 267-274, and of [app.py], lines
    93-105: [data = []], then [data = current_data] at every tuple; what
    [data] holds when the loop is over, read in the heap as it is then. *)
Definition final_data (r : list (RunProgress * Gen) * Status * Gen)
  : list RawRow :=
  match last r.1.1 with
  | None => []
  | Some (ev, _) => deref (heap (st r.2)) (rowsSoFar ev)
  end.

(** [app.py], line 98: [progress = min(page * 10, 90)]. *)
Definition progress (page : nat) : nat := Nat.min (page * 10) 90.

(** A page on which the third row cannot be read for a reason other than
    staleness. *)
Definition broken_tr : Row :=
  {| row_text := Raise WebDriverException;
     row_cells := Raise WebDriverException |}.

Definition broken_page_driver : Driver :=
  new_driver (fun _ => obs nav_ok
                           (table [tr aapl; tr spacer; broken_tr; tr msft])
                           (no_next [])).

(** A page that does not change after the click: every poll reads the same
    first row. *)
Definition stuck_page_driver : Driver :=
  new_driver (fun _ => obs nav_ok (table [])
                           (next_ok [tr aapl] [[tr aapl]; []; [tr aapl]])).

(** A table without rows, with a working "next" control and no poll. *)
Definition empty_table_driver : Driver :=
  new_driver (fun _ => obs nav_ok (table []) (next_ok [] [])).

(** A "next" control whose class only mentions the word inside another
    name. *)
Definition odd_class_driver : Driver :=
  new_driver (fun _ =>
    obs nav_ok (table [])
        {| first_rows := Return [tr aapl];
           next_button :=
             Return {| class_attr := Return (Some "btn not-disabled-yet") |};
           scroll_script := Return tt; click_script := Return tt;
           change_polls := [Return [tr msft]] |}).

(** A poll result that lets the wait go on. *)
Definition quiet (p : result bool) : Prop :=
  p = Return false \/ p = Raise NoSuchElementException.



(** The list objects that were there before the run are still what they
    were. *)
Definition keeps (h0 : Heap) (g : Gen) : Prop :=
  take (length h0) (heap (st g)) = h0.

(** A generator of a run started on the heap [h0], not yet run or with its
    accumulator right behind the objects of [h0]. *)
Definition runs_on (h0 : Heap) (g : Gen) : Prop :=
  keeps h0 g /\
  (pc g = Created -> heap (st g) = h0) /\
  (pc g <> Created -> all_data g = length h0).

(** A table row all of whose cells can be read, with the texts [cells]. *)
Definition readable (row : Row) (cells : list string) : Prop :=
  row_cells row = Return (td <$> cells).

(** * Page extraction *)

Lemma col_text_td (cells : list string) (i : nat) (c : string) :
  cells !! i = Some c -> col_text (td <$> cells) i = Return (strip c).
Proof.
  intros Hc. unfold col_text. rewrite list_lookup_fmap, Hc. reflexivity.
Qed.

Lemma ten_cells (cells : list string) :
  10 <= length cells ->
  exists c0 c1 c2 c3 c4 c5 c6 c7 c8 c9 more,
    cells = c0 :: c1 :: c2 :: c3 :: c4 :: c5 :: c6 :: c7 :: c8 :: c9 :: more.
Proof.
  intros Hlen.
  do 10 (destruct cells as [|? cells]; [simpl in Hlen; lia|]).
  repeat eexists.
Qed.

(** A readable row of ten cells or more always gives a RawRow. *)
Lemma stock_data_readable (cells : list string) :
  10 <= length cells -> exists rr, stock_data (td <$> cells) = Return rr.
Proof.
  intros Hlen.
  destruct (ten_cells cells Hlen)
    as (c0 & c1 & c2 & c3 & c4 & c5 & c6 & c7 & c8 & c9 & more & ->).
  eexists. reflexivity.
Qed.

(** The loop over readable rows: it only ever appends, it appends one
    RawRow per row of ten cells or more, in row order, and no exception
    leaves it. *)
Lemma scrape_rows_readable (rows : list Row) (snapshot : list (list string)) :
  Forall2 readable rows snapshot ->
  forall data, exists emitted,
    scrape_rows rows data = (data ++ emitted, None) /\
    Forall2 (fun cells rr => stock_data (td <$> cells) = Return rr)
            (filter (fun cells => 10 <= length cells) snapshot) emitted.
Proof.
  induction 1 as [|row cells rows snapshot Hrow _ IH]; intros data.
  - exists []. split; [simpl; by rewrite app_nil_r | constructor].
  - simpl. rewrite Hrow, length_fmap.
    destruct (Nat.ltb_spec (length cells) 10) as [Hshort|Hlong].
    + destruct (IH data) as (emitted & Hrun & Hall).
      exists emitted. split; [exact Hrun|].
      rewrite filter_cons_False by lia. exact Hall.
    + destruct (stock_data_readable cells Hlong) as (rr & Hrr).
      rewrite Hrr.
      destruct (IH (data ++ [rr])) as (emitted & Hrun & Hall).
      exists (rr :: emitted). split.
      * rewrite Hrun. f_equal. by rewrite <- app_assoc.
      * rewrite filter_cons_True by lia. by constructor.
Qed.

(** [strip] takes the white space off both ends and nothing else. *)
Example strip_both_ends : strip "  Apple Inc. " = "Apple Inc.".
Proof. reflexivity. Qed.

Example strip_blank : strip " " = "".
Proof. reflexivity. Qed.

(** C1. When the table is visible and every body row can be read, page
    extraction returns, in one attempt, one RawRow for each row of at least
    ten cells, in the order of those rows, and nothing for the rows with
    fewer cells: the RawRows correspond one to one, in order, to the
    snapshot with its short rows filtered out. *)
Theorem scrape_current_page_skips_short_rows
    (fuel : nat) (d : Driver) (rows : list Row) (snapshot : list (list string)) :
  table_view (observe d) = table rows ->
  Forall2 readable rows snapshot ->
  exists data,
    scrape_current_page (S fuel) d = Some (data, advance d) /\
    Forall2 (fun cells rr => stock_data (td <$> cells) = Return rr)
            (filter (fun cells => 10 <= length cells) snapshot) data.
Proof.
  intros Hview Hrows.
  destruct (scrape_rows_readable rows snapshot Hrows []) as (data & Hrun & Hall).
  exists data. split; [|exact Hall].
  simpl. unfold scrape_attempt. rewrite Hview. simpl. by rewrite Hrun.
Qed.

(** The scenario of the specification: AAPL, a three-cell row, MSFT. *)
Lemma scrape_current_page_skips_short_rows_witness :
  exists data,
    scrape_current_page 1 scenario_driver
    = Some (data, advance scenario_driver) /\
    Forall2 (fun cells rr => stock_data (td <$> cells) = Return rr)
            (filter (fun cells => 10 <= length cells) [aapl; spacer; msft]) data.
Proof.
  apply (scrape_current_page_skips_short_rows 0 scenario_driver
           [tr aapl; tr spacer; tr msft] [aapl; spacer; msft]).
  - reflexivity.
  - repeat constructor.
Defined.

(** C2. For a row of at least ten readable cells, the RawRow holds the
    stripped text of cell 0 under [symbol], of cell 1 under [name], of cell 3
    under [price], of cell 4 under [change], of cell 6 under [volume], of
    cell 8 under [market_cap] and of cell 9 under [pe_ratio]; it has these
    seven keys and no other, and its values are strings. *)
Theorem stock_data_columns (cells : list string) :
  10 <= length cells ->
  exists rr : RawRow,
    stock_data (td <$> cells) = Return rr /\
    rr !! "symbol" = strip <$> cells !! 0 /\
    rr !! "name" = strip <$> cells !! 1 /\
    rr !! "price" = strip <$> cells !! 3 /\
    rr !! "change" = strip <$> cells !! 4 /\
    rr !! "volume" = strip <$> cells !! 6 /\
    rr !! "market_cap" = strip <$> cells !! 8 /\
    rr !! "pe_ratio" = strip <$> cells !! 9 /\
    (forall i, i < 10 -> is_Some (cells !! i)) /\
    dom rr = {[ "symbol"; "name"; "price"; "change"; "volume"; "market_cap";
                "pe_ratio" ]}.
Proof.
  intros Hlen.
  destruct (ten_cells cells Hlen)
    as (c0 & c1 & c2 & c3 & c4 & c5 & c6 & c7 & c8 & c9 & more & ->).
  eexists. split; [reflexivity|].
  repeat split; try (by simplify_map_eq).
  intros i Hi. apply lookup_lt_is_Some. simpl. lia.
Qed.

Lemma stock_data_columns_witness :
  exists rr : RawRow,
    stock_data (td <$> aapl) = Return rr /\
    rr !! "symbol" = Some "AAPL" /\
    rr !! "name" = Some "Apple Inc." /\
    rr !! "price" = Some "189.84" /\
    rr !! "pe_ratio" = Some "31.02".
Proof.
  destruct (stock_data_columns aapl) as (rr & Hrr & Hs & Hn & Hp & _ & _ & _ & Hpe & _).
  - simpl. lia.
  - exists rr. repeat split; assumption.
Defined.

(** * The retry on stale elements *)

Lemma attempt_at_advance (d : Driver) (i : nat) :
  attempt_at (advance d) i = attempt_at d (S i).
Proof.
  unfold attempt_at. simpl. by rewrite Nat.add_succ_r.
Qed.

Lemma scrape_current_page_step (fuel : nat) (d : Driver) :
  scrape_current_page (S fuel) d =
  match attempt_at d 0 with
  | (_, Some StaleElementReferenceException) =>
      scrape_current_page fuel (advance d)
  | (data, _) => Some (data, advance d)
  end.
Proof.
  unfold attempt_at, observe. by rewrite Nat.add_0_r.
Qed.








(** * Pagination *)

(** One call of a [try] body whose handlers all give [False]: either the
    call raises, and the goal is closed by the handlers, or the body goes
    on with the value. *)
Tactic Notation "next_call" constr(c) "as" ident(x) :=
  let e := fresh "e" in
  destruct c as [e|x]; simpl; [by destruct e|].


(** [_has_table_changed] is true only on a first row with another text. *)
Lemma has_table_changed_true (old : string) (poll : result (list Row)) :
  _has_table_changed old poll = Return true ->
  exists r rest t,
    poll = Return (r :: rest) /\ row_text r = Return t /\ t <> old.
Proof.
  unfold _has_table_changed.
  destruct poll as [e|[|r rest]]; simpl.
  - destruct e; discriminate.
  - discriminate.
  - destruct (row_text r) as [e|t] eqn:Ht; simpl.
    + destruct e; discriminate.
    + intros [= Hne]. exists r, rest, t.
      split; [reflexivity|]. split; [exact Ht|].
      intros ->. by rewrite String.eqb_refl in Hne.
Qed.

(** The only way to [True]: every call succeeded, the control was not
    disabled, both scripts ran and the wait, if any, ended well. *)
Lemma go_to_next_page_true (d : Driver) :
  (go_to_next_page d).1 = true <->
  exists rows fp btn,
    first_rows (next_view (observe d)) = Return rows /\
    first_row_check rows = Return fp /\
    next_button (next_view (observe d)) = Return btn /\
    is_disabled btn = Return false /\
    scroll_script (next_view (observe d)) = Return tt /\
    click_script (next_view (observe d)) = Return tt /\
    wait_for_change (next_view (observe d)) fp = Return tt.
Proof.
  unfold go_to_next_page, go_to_next_page_try. simpl.
  set (v := next_view (observe d)). split.
  - destruct (first_rows v) as [e|rows] eqn:Hrows; simpl; [by destruct e|].
    destruct (first_row_check rows) as [e|fp] eqn:Hfp; simpl;
      [by destruct e|].
    destruct (next_button v) as [e|btn] eqn:Hbtn; simpl; [by destruct e|].
    destruct (is_disabled btn) as [e|dis] eqn:Hdis; simpl;
      [by destruct e|].
    destruct dis; simpl; [discriminate|].
    destruct (scroll_script v) as [e|[]] eqn:Hscroll; simpl;
      [by destruct e|].
    destruct (click_script v) as [e|[]] eqn:Hclick; simpl;
      [by destruct e|].
    destruct (wait_for_change v fp) as [e|[]] eqn:Hw; simpl;
      [by destruct e|].
    intros _. by exists rows, fp, btn.
  - intros (rows & fp & btn & -> & Hfp & -> & Hdis & -> & -> & Hw). simpl.
    rewrite Hfp. simpl. rewrite Hdis. simpl. by rewrite Hw.
Qed.




(** A step that does advance: the second poll reads another first row. *)
Example go_to_next_page_advances :
  go_to_next_page advancing_driver = (true, advance advancing_driver).
Proof. reflexivity. Qed.

(** C10. Whatever browser call of [go_to_next_page] raises, and whatever it
    raises, the method returns [False]: nothing reaches the caller but a
    boolean. *)
Theorem go_to_next_page_never_raises (d : Driver) (e : exn) :
  next_page_failure (next_view (observe d)) e ->
  exists d', go_to_next_page d = (false, d').
Proof.
  intros Hfail. exists (advance d).
  unfold go_to_next_page. f_equal.
  unfold next_page_failure in Hfail. unfold go_to_next_page_try.
  set (v := next_view (observe d)) in *.
  destruct Hfail as [H|[(rows & Hr & H)|[H|[(btn & Hb & H)|[H|[H|H]]]]]].
  - rewrite H. simpl. by destruct e.
  - rewrite Hr. simpl. rewrite H. simpl. by destruct e.
  - next_call (first_rows v) as rows. next_call (first_row_check rows) as fp.
    rewrite H. simpl. by destruct e.
  - next_call (first_rows v) as rows. next_call (first_row_check rows) as fp.
    rewrite Hb. simpl. rewrite H. simpl. by destruct e.
  - next_call (first_rows v) as rows. next_call (first_row_check rows) as fp.
    next_call (next_button v) as btn. next_call (is_disabled btn) as dis.
    destruct dis; simpl; [done|]. rewrite H. simpl. by destruct e.
  - next_call (first_rows v) as rows. next_call (first_row_check rows) as fp.
    next_call (next_button v) as btn. next_call (is_disabled btn) as dis.
    destruct dis; simpl; [done|]. next_call (scroll_script v) as scrolled.
    rewrite H. simpl. by destruct e.
  - destruct H as (rows & fp & Hr & Hfp & H).
    rewrite Hr. simpl. rewrite Hfp. simpl.
    next_call (next_button v) as btn. next_call (is_disabled btn) as dis.
    destruct dis; simpl; [done|]. next_call (scroll_script v) as scrolled.
    next_call (click_script v) as clicked. rewrite H. simpl. by destruct e.
Qed.

(** The stale first row: a [StaleElementReferenceException] inside, [False]
    outside. *)
Lemma go_to_next_page_never_raises_witness :
  exists d', go_to_next_page stale_first_row_driver = (false, d').
Proof.
  apply (go_to_next_page_never_raises stale_first_row_driver
           StaleElementReferenceException).
  right. left. exists [stale_tr]. split; reflexivity.
Defined.

(** * The run *)

(** ** The heap and the session under the methods *)

Lemma deref_extend (h : Heap) (l : loc) (ys : list RawRow) :
  deref h l `prefix_of` deref (extend h l ys) l.
Proof.
  unfold extend, deref.
  destruct (decide (l < length h)) as [Hlt|Hge].
  - rewrite list_lookup_insert_eq by assumption. simpl.
    by apply prefix_app_r.
  - rewrite list_insert_ge by lia. reflexivity.
Qed.

Lemma deref_alloc (h : Heap) : deref (alloc h).2 (alloc h).1 = [].
Proof.
  unfold deref, alloc. simpl.
  by rewrite lookup_app_r, Nat.sub_diag by lia.
Qed.

(** Page extraction does not touch the session. *)
Lemma scrape_current_page_session (fuel : nat) :
  forall d data d',
    scrape_current_page fuel d = Some (data, d') ->
    quit_calls d' = quit_calls d /\ session_open d' = session_open d.
Proof.
  induction fuel as [|fuel IH]; intros d data d'; simpl; [discriminate|].
  destruct (scrape_attempt (table_view (observe d))) as [rows [e|]].
  - destruct e; try (intros [= <- <-]; by split).
    intros H. by destruct (IH _ _ _ H).
  - intros [= <- <-]. by split.
Qed.

(** [close] never raises; it quits once and leaves the heap alone. *)
Lemma close_spec (s : State) :
  close s = (Return tt,
             {| drv := {| tick := S (tick (drv s)); world := world (drv s);
                          session_open := false;
                          quit_calls := S (quit_calls (drv s)) |};
                heap := heap s |}).
Proof.
  unfold close, quit. by destruct (remote_quit (observe (drv s))).
Qed.

Lemma finish_spec (g : Gen) :
  exists g',
    finish g = (StopIteration, g') /\ pc g' = Finished /\
    quit_calls (drv (st g')) = S (quit_calls (drv (st g))) /\
    session_open (drv (st g')) = false /\
    heap (st g') = heap (st g).
Proof.
  unfold finish. rewrite close_spec. eexists. by repeat split.
Qed.

(** ** The generator, one [next] at a time *)

Section Run.

(** The retry budget of page extraction, the same at every [next]. *)
Variable fuel : nat.

(** One pass through lines 243-249. *)
Lemma loop_body_spec (g : Gen) :
  (loop_body fuel g = (Diverges, g)) \/
  (exists ev g',
      loop_body fuel g = (Yield ev, g') /\
      pc g' = Suspended /\ all_data g' = all_data g /\
      page_num g' = page_num g /\
      pageNumber ev = page_num g /\ rowsSoFar ev = all_data g /\
      deref (heap (st g)) (all_data g)
        `prefix_of` deref (heap (st g')) (all_data g) /\
      cumulativeRowCount ev = length (deref (heap (st g')) (all_data g)) /\
      quit_calls (drv (st g')) = quit_calls (drv (st g)) /\
      session_open (drv (st g')) = session_open (drv (st g))).
Proof.
  unfold loop_body.
  destruct (scrape_current_page fuel (drv (st g))) as [[data d]|] eqn:Hs;
    [right|by left].
  destruct (scrape_current_page_session _ _ _ _ Hs) as [Hq Ho].
  eexists _, _. split; [reflexivity|]. simpl.
  repeat split; try assumption. apply deref_extend.
Qed.

Lemma gen_next_suspended (g : Gen) :
  pc g = Suspended ->
  next_spec fuel g (page_num g) (deref (heap (st g)) (all_data g))
            (all_data g).
Proof.
  intros Hpc. unfold next_spec, gen_next. rewrite Hpc.
  destruct (go_to_next_page (drv (st g))) as [advanced d] eqn:Hgo.
  assert (Hd : d = advance (drv (st g))) by (by injection Hgo).
  destruct advanced.
  - match goal with |- context [loop_body fuel ?g1] =>
      destruct (loop_body_spec g1)
        as [Hdiv|(ev & g' & Hrun & H1 & H2 & H3 & H4 & H5 & H6 & H7 & H8 & _)]
    end.
    + left. eauto.
    + right. right. exists ev, g'. simpl in *. subst d.
      by repeat split.
  - right. left.
    match goal with |- context [finish ?g1] =>
      destruct (finish_spec g1) as (g' & Hrun & H1 & H2 & H3 & _)
    end.
    exists g'. simpl in *. subst d. by repeat split.
Qed.

Lemma gen_next_created (s : State) :
  next_spec fuel (run s) 0 [] (length (heap s)).
Proof.
  unfold next_spec, gen_next, navigate_to_most_active. simpl.
  destruct (navigate_try (nav_view (observe (drv s)))) as [e|[]].
  - right. left.
    match goal with |- context [finish ?g1] =>
      destruct (finish_spec g1) as (g' & Hrun & H1 & H2 & H3 & _)
    end.
    exists g'. by repeat split.
  - match goal with |- context [loop_body fuel ?g1] =>
      destruct (loop_body_spec g1)
        as [Hdiv|(ev & g' & Hrun & H1 & H2 & H3 & H4 & H5 & H6 & H7 & H8 & _)]
    end.
    + left. eauto.
    + right. right. exists ev, g'. simpl in *.
      repeat split; try assumption. apply prefix_nil.
Qed.

(** The caller's loop, from any generator whose next step meets
    [next_spec]. *)
Lemma consume_spec (n : nat) :
  forall g p prev l evs status g',
    next_spec fuel g p prev l ->
    consume n fuel g = (evs, status, g') ->
    progress_from p prev (quit_calls (drv (st g))) l evs /\
    (forall e, status <> Escaped e) /\
    (status = Completed ->
     pc g' = Finished /\
     quit_calls (drv (st g')) = S (quit_calls (drv (st g))) /\
     session_open (drv (st g')) = false).
Proof.
  induction n as [|n IH]; intros g p prev l evs status g' Hnext; simpl.
  - intros [= <- <- <-]. by repeat split.
  - destruct Hnext as [(g1 & ->)|[(g1 & -> & H1 & H2 & H3)
                      |(ev & g1 & -> & H1 & H2 & H3 & H4 & H5 & H6 & H7 & H8)]].
    + intros [= <- <- <-]. by repeat split.
    + intros [= <- <- <-]. by repeat split.
    + destruct (consume n fuel g1) as [[evs1 status1] g2] eqn:Hrest.
      intros [= <- <- <-].
      pose proof (gen_next_suspended g1 H1) as Hnext1.
      rewrite H2, H3 in Hnext1.
      destruct (IH _ _ _ _ _ _ _ Hnext1 Hrest) as (Hp & He & Hc).
      rewrite H8 in Hp, Hc.
      split; [|by split]. simpl. by rewrite H8.
Qed.

Lemma run_spec (n : nat) (s : State) evs status g :
  consume n fuel (run s) = (evs, status, g) ->
  progress_from 0 [] (quit_calls (drv s)) (length (heap s)) evs /\
  (forall e, status <> Escaped e) /\
  (status = Completed ->
   pc g = Finished /\
   quit_calls (drv (st g)) = S (quit_calls (drv s)) /\
   session_open (drv (st g)) = false).
Proof.
  intros Hrun.
  exact (consume_spec n _ _ _ _ _ _ _ (gen_next_created s) Hrun).
Qed.

(** Readings of [progress_from]. *)
Lemma progress_from_pages p prev q l evs :
  progress_from p prev q l evs ->
  pageNumber <$> evs.*1 = seq (S p) (length evs).
Proof.
  revert p prev. induction evs as [|[ev g] evs IH]; intros p prev; simpl;
    [done|].
  intros (Hp & _ & _ & _ & _ & Hrest).
  change (pageNumber ev :: (pageNumber <$> evs.*1)
          = S p :: seq (S (S p)) (length evs)).
  f_equal; [exact Hp | by eapply IH].
Qed.

Lemma progress_from_counts p prev q l evs :
  progress_from p prev q l evs ->
  forall i a b,
    evs.*1 !! i = Some a -> evs.*1 !! S i = Some b ->
    cumulativeRowCount a <= cumulativeRowCount b.
Proof.
  revert p prev. induction evs as [|[ev g] evs IH]; intros p prev; simpl;
    [done|].
  intros (_ & _ & _ & Hc & _ & Hrest) i a b Ha Hb.
  destruct i as [|i]; [|by eapply IH].
  injection Ha as <-.
  destruct evs as [|[ev' g'] evs]; [discriminate|].
  injection Hb as <-. destruct Hrest as (_ & _ & Hpre & Hc' & _).
  rewrite Hc, Hc'. by apply prefix_length.
Qed.

Lemma progress_from_Forall p prev q l evs :
  progress_from p prev q l evs ->
  Forall (fun x => cumulativeRowCount x.1
                   = length (deref (heap (st x.2)) (rowsSoFar x.1)) /\
                   quit_calls (drv (st x.2)) = q) evs.
Proof.
  revert p prev. induction evs as [|[ev g] evs IH]; intros p prev; simpl;
    [constructor|].
  intros (_ & Hl & _ & Hc & Hq & Hrest). constructor; [|by eapply IH].
  simpl. by rewrite Hl.
Qed.

End Run.

(** C5. In the stream of tuples that a caller receives from [run], however
    far the caller reads and whatever the browser does, the page numbers are
    1, 2, 3, ... in this order, and the row count never goes down from one
    tuple to the next. *)
Theorem run_progress_numbering (n fuel : nat) (s : State) :
  pageNumber <$> (consume n fuel (run s)).1.1.*1
  = seq 1 (length (consume n fuel (run s)).1.1) /\
  (forall i a b,
      (consume n fuel (run s)).1.1.*1 !! i = Some a ->
      (consume n fuel (run s)).1.1.*1 !! S i = Some b ->
      cumulativeRowCount a <= cumulativeRowCount b).
Proof.
  destruct (consume n fuel (run s)) as [[evs status] g] eqn:Hrun.
  destruct (run_spec _ _ _ _ _ _ Hrun) as (Hp & _ & _). simpl. split.
  - by eapply progress_from_pages.
  - by eapply progress_from_counts.
Qed.

(** The listing of three pages: three tuples, pages 1, 2, 3 with 1, 2 and 3
    rows, and the run ends by itself. *)
Example three_pages_stream :
  (fun ev => (pageNumber ev, cumulativeRowCount ev))
    <$> (consume 4 1 (run (new_state three_pages))).1.1.*1
  = [(1, 1); (2, 2); (3, 3)] /\
  (consume 4 1 (run (new_state three_pages))).1.2 = Completed.
Proof. split; reflexivity. Qed.

(** C9. In every tuple, at the moment it is handed to the caller, the count
    is the length of the list carried in the same tuple. *)
Theorem run_progress_count_is_length (n fuel : nat) (s : State) :
  Forall (fun x => cumulativeRowCount x.1
                   = length (deref (heap (st x.2)) (rowsSoFar x.1)))
         (consume n fuel (run s)).1.1.
Proof.
  destruct (consume n fuel (run s)) as [[evs status] g] eqn:Hrun.
  destruct (run_spec _ _ _ _ _ _ Hrun) as (Hp & _ & _). simpl.
  eapply Forall_impl; [by eapply progress_from_Forall|].
  by intros x [Hx _].
Qed.

(** C8. A run that comes to its end, by whatever path, has called [quit]
    exactly once: the session is closed, the generator has returned and a
    further [next] does nothing, no tuple was handed over after or during
    the closing, and no exception left the run. *)
Theorem run_closes_exactly_once (n fuel : nat) (s : State)
    (evs : list (RunProgress * Gen)) (g : Gen) :
  consume n fuel (run s) = (evs, Completed, g) ->
  quit_calls (drv (st g)) = S (quit_calls (drv s)) /\
  session_open (drv (st g)) = false /\
  Forall (fun x => quit_calls (drv (st x.2)) = quit_calls (drv s)) evs /\
  gen_next fuel g = (StopIteration, g).
Proof.
  intros Hrun.
  destruct (run_spec _ _ _ _ _ _ Hrun) as (Hp & _ & Hc).
  destruct (Hc eq_refl) as (Hpc & Hq & Ho).
  repeat split; try assumption.
  - eapply Forall_impl; [by eapply progress_from_Forall|].
    by intros x [_ Hx].
  - unfold gen_next. by rewrite Hpc.
Qed.

(** Pagination exhausted after three pages: one quit. *)
Lemma run_closes_exactly_once_witness :
  quit_calls (drv (st (consume 4 1 (run (new_state three_pages))).2)) = 1 /\
  session_open (drv (st (consume 4 1 (run (new_state three_pages))).2)) = false.
Proof.
  destruct (run_closes_exactly_once 4 1 (new_state three_pages)
              (consume 4 1 (run (new_state three_pages))).1.1
              (consume 4 1 (run (new_state three_pages))).2)
    as (Hq & Ho & _).
  - reflexivity.
  - split; assumption.
Defined.

(** No run lets an exception out. *)
Lemma run_never_raises (n fuel : nat) (s : State) (e : exn) :
  (consume n fuel (run s)).1.2 <> Escaped e.
Proof.
  destruct (consume n fuel (run s)) as [[evs status] g] eqn:Hrun.
  destruct (run_spec _ _ _ _ _ _ Hrun) as (_ & He & _). apply He.
Qed.

(** A navigation fault: no tuple, the run ends at once, one quit. *)
Example navigation_fault_closes :
  exists g,
    consume 1 0 (run (new_state no_markets_menu)) = ([], Completed, g) /\
    quit_calls (drv (st g)) = 1 /\ session_open (drv (st g)) = false.
Proof. eexists. repeat split. Qed.

(** C7. Two calls of [close] in a row: neither raises, the session is closed
    after each, and the heap, hence every list the caller holds, is after
    the second call what it was before the first. *)
Theorem close_twice (s : State) :
  exists s1 s2,
    close s = (Return tt, s1) /\ close s1 = (Return tt, s2) /\
    session_open (drv s1) = false /\ session_open (drv s2) = false /\
    heap s1 = heap s /\ heap s2 = heap s.
Proof.
  eexists _, _. split; [apply close_spec|]. split; [apply close_spec|].
  by repeat split.
Qed.

(** C6, at the listing of three pages.  The tuple of page 1 says one row,
    and the list it carries has one row when the tuple is handed over; the
    same list has two rows once page 2 is scraped and three at the end of the
    run, because every tuple carries the accumulator itself. *)
Theorem run_progress_shares_accumulator :
  exists ev1 g1 ev2 g2 ev3 g3 g,
    consume 4 1 (run (new_state three_pages))
    = ([(ev1, g1); (ev2, g2); (ev3, g3)], Completed, g) /\
    cumulativeRowCount ev1 = 1 /\
    rowsSoFar ev1 = rowsSoFar ev2 /\ rowsSoFar ev2 = rowsSoFar ev3 /\
    length (deref (heap (st g1)) (rowsSoFar ev1)) = 1 /\
    length (deref (heap (st g2)) (rowsSoFar ev1)) = 2 /\
    length (deref (heap (st g3)) (rowsSoFar ev1)) = 3 /\
    length (deref (heap (st g)) (rowsSoFar ev1)) = 3.
Proof.
  do 7 eexists. split; [reflexivity|]. by repeat split.
Qed.


(** * Further properties of page extraction *)

Lemma lstrip_front (s : string) : starts_with_space (lstrip s) = false.
Proof.
  induction s as [|a s IH]; simpl; [reflexivity|].
  destruct (is_space a) eqn:Ha; [exact IH | simpl; exact Ha].
Qed.

Lemma rstrip_front (s : string) :
  starts_with_space s = false -> starts_with_space (rstrip s) = false.
Proof.
  destruct s as [|a s]; simpl; [done|]. intros Ha.
  destruct (rstrip s); [by rewrite Ha|]; simpl; exact Ha.
Qed.

Lemma rstrip_back (s : string) : ends_with_space (rstrip s) = false.
Proof.
  induction s as [|a s IH]; simpl; [reflexivity|].
  destruct (rstrip s) as [|b r].
  - destruct (is_space a) eqn:Ha; simpl; [reflexivity | exact Ha].
  - exact IH.
Qed.

(** A stripped text has no white space at either end. *)
Lemma strip_trimmed (s : string) :
  starts_with_space (strip s) = false /\ ends_with_space (strip s) = false.
Proof.
  unfold strip. split; [apply rstrip_front, lstrip_front | apply rstrip_back].
Qed.

Lemma col_text_trimmed (cols : list Cell) (i : nat) (t : string) :
  col_text cols i = Return t ->
  starts_with_space t = false /\ ends_with_space t = false.
Proof.
  unfold col_text. destruct (cols !! i) as [c|]; [|discriminate].
  destruct (cell_text c) as [e|t0]; simpl; [discriminate|].
  intros [= <-]. apply strip_trimmed.
Qed.

Lemma stock_data_well_formed (cols : list Cell) (rr : RawRow) :
  stock_data cols = Return rr -> well_formed rr.
Proof.
  unfold stock_data.
  destruct (col_text cols 0) as [|c0] eqn:H0; simpl; [discriminate|].
  destruct (col_text cols 1) as [|c1] eqn:H1; simpl; [discriminate|].
  destruct (col_text cols 3) as [|c3] eqn:H3; simpl; [discriminate|].
  destruct (col_text cols 4) as [|c4] eqn:H4; simpl; [discriminate|].
  destruct (col_text cols 6) as [|c6] eqn:H6; simpl; [discriminate|].
  destruct (col_text cols 8) as [|c8] eqn:H8; simpl; [discriminate|].
  destruct (col_text cols 9) as [|c9] eqn:H9; simpl; [discriminate|].
  intros [= <-]. split.
  - unfold seven_keys. rewrite !dom_insert_L, dom_empty_L. set_solver.
  - intros k v Hk.
    repeat (apply lookup_insert_Some in Hk as [[_ <-]|[_ Hk]];
            [by eapply col_text_trimmed|]).
    by rewrite lookup_empty in Hk.
Qed.

Lemma scrape_rows_well_formed (rows : list Row) :
  forall data,
    Forall well_formed data -> Forall well_formed (scrape_rows rows data).1.
Proof.
  induction rows as [|row rows IH]; intros data Hdata; simpl; [exact Hdata|].
  destruct (row_cells row) as [e|cols]; [exact Hdata|].
  destruct (length cols <? 10); [by apply IH|].
  destruct (stock_data cols) as [e|rr] eqn:Hrr; [exact Hdata|].
  apply IH. apply Forall_app. split; [exact Hdata|].
  constructor; [by eapply stock_data_well_formed | constructor].
Qed.

Lemma scrape_attempt_well_formed (v : TableView) :
  Forall well_formed (scrape_attempt v).1.
Proof.
  unfold scrape_attempt.
  destruct (table_visible v); [constructor|].
  destruct (table_rows v); [constructor|].
  apply scrape_rows_well_formed. constructor.
Qed.

(** Every return of [scrape_current_page] comes from one attempt that did
    not meet a stale element, after a run of attempts that all did. *)
Lemma scrape_current_page_inv (fuel : nat) :
  forall d data d',
    scrape_current_page fuel d = Some (data, d') ->
    exists k,
      k < fuel /\
      (forall i, i < k ->
                 (attempt_at d i).2 = Some StaleElementReferenceException) /\
      (attempt_at d k).2 <> Some StaleElementReferenceException /\
      data = (attempt_at d k).1 /\
      d' = Nat.iter (S k) advance d.
Proof.
  induction fuel as [|fuel IH]; intros d data d'; [discriminate|].
  rewrite scrape_current_page_step.
  destruct (attempt_at d 0) as [rows o] eqn:H0.
  assert (Hdone : Some (rows, advance d) = Some (data, d') ->
                  o <> Some StaleElementReferenceException ->
                  exists k, k < S fuel /\
                    (forall i, i < k ->
                       (attempt_at d i).2 = Some StaleElementReferenceException)
                    /\ (attempt_at d k).2 <> Some StaleElementReferenceException
                    /\ data = (attempt_at d k).1
                    /\ d' = Nat.iter (S k) advance d).
  { intros [= <- <-] Ho. exists 0. rewrite H0. simpl.
    repeat split; try done; [lia | intros i Hi; lia]. }
  destruct o as [e|]; [|intros H; by apply Hdone].
  destruct e; try (intros H; by apply Hdone).
  intros Hrec. destruct (IH _ _ _ Hrec) as (k & Hk & Hstale & Hfresh & -> & ->).
  exists (S k). repeat split.
  - lia.
  - intros [|i] Hi; [by rewrite H0|].
    rewrite <- attempt_at_advance. apply Hstale. lia.
  - by rewrite <- attempt_at_advance.
  - by rewrite attempt_at_advance.
  - by rewrite (Nat.iter_succ_r (S k)).
Qed.

(** X1. Whatever the browser answers, every RawRow that
    [scrape_current_page] returns has exactly the seven keys, and none of its
    values begins or ends with white space. *)
Theorem scrape_current_page_well_formed
    (fuel : nat) (d : Driver) (data : list RawRow) (d' : Driver) :
  scrape_current_page fuel d = Some (data, d') ->
  Forall well_formed data.
Proof.
  intros Hrun.
  destruct (scrape_current_page_inv _ _ _ _ Hrun) as (k & _ & _ & _ & -> & _).
  apply scrape_attempt_well_formed.
Qed.

Lemma scrape_current_page_well_formed_witness :
  exists data,
    scrape_current_page 1 scenario_driver = Some (data, advance scenario_driver)
    /\ length data = 2 /\ Forall well_formed data.
Proof.
  eexists. split; [reflexivity|]. split; [reflexivity|].
  apply (scrape_current_page_well_formed 1 scenario_driver _
           (advance scenario_driver)).
  reflexivity.
Defined.

(** The loop over a readable stretch of rows, followed by more rows. *)
Lemma scrape_rows_app_readable (pre : list Row) (snapshot : list (list string)) :
  Forall2 readable pre snapshot ->
  forall rest data, exists emitted,
    scrape_rows (pre ++ rest) data = scrape_rows rest (data ++ emitted) /\
    Forall2 (fun cells rr => stock_data (td <$> cells) = Return rr)
            (filter (fun cells => 10 <= length cells) snapshot) emitted.
Proof.
  induction 1 as [|row cells pre snapshot Hrow _ IH]; intros rest data.
  - exists []. split; [simpl; by rewrite app_nil_r | constructor].
  - simpl. rewrite Hrow, length_fmap.
    destruct (Nat.ltb_spec (length cells) 10) as [Hshort|Hlong].
    + destruct (IH rest data) as (emitted & Hrun & Hall).
      exists emitted. split; [exact Hrun|].
      rewrite filter_cons_False by lia. exact Hall.
    + destruct (stock_data_readable cells Hlong) as (rr & Hrr).
      rewrite Hrr.
      destruct (IH rest (data ++ [rr])) as (emitted & Hrun & Hall).
      exists (rr :: emitted). split.
      * rewrite Hrun. f_equal. by rewrite <- app_assoc.
      * rewrite filter_cons_True by lia. by constructor.
Qed.

(** X2. When a row cannot be read for a reason other than staleness (its
    cells cannot be listed, or one of its seven texts cannot be read),
    [scrape_current_page] neither raises nor retries: it returns at once the
    RawRows of the rows before the faulty one, and drops the faulty row and
    every row after it. *)
Theorem scrape_current_page_keeps_rows_before_fault
    (fuel : nat) (d : Driver) (pre : list Row) (snapshot : list (list string))
    (bad : Row) (post : list Row) (e : exn) :
  table_view (observe d) = table (pre ++ bad :: post) ->
  Forall2 readable pre snapshot ->
  (row_cells bad = Raise e \/
   exists cols, row_cells bad = Return cols /\ 10 <= length cols /\
                stock_data cols = Raise e) ->
  e <> StaleElementReferenceException ->
  exists data,
    scrape_current_page (S fuel) d = Some (data, advance d) /\
    Forall2 (fun cells rr => stock_data (td <$> cells) = Return rr)
            (filter (fun cells => 10 <= length cells) snapshot) data.
Proof.
  intros Hview Hpre Hbad He.
  destruct (scrape_rows_app_readable pre snapshot Hpre (bad :: post) [])
    as (data & Hrun & Hall).
  exists data. split; [|exact Hall].
  simpl. unfold scrape_attempt. rewrite Hview. simpl. rewrite Hrun. simpl.
  destruct Hbad as [Hcells|(cols & Hcells & Hlen & Hsd)]; rewrite Hcells.
  - by destruct e.
  - destruct (Nat.ltb_spec (length cols) 10) as [Hshort|_]; [lia|].
    rewrite Hsd. by destruct e.
Qed.

Lemma scrape_current_page_keeps_rows_before_fault_witness :
  exists data,
    scrape_current_page 1 broken_page_driver
    = Some (data, advance broken_page_driver) /\
    Forall2 (fun cells rr => stock_data (td <$> cells) = Return rr)
            (filter (fun cells => 10 <= length cells) [aapl; spacer]) data.
Proof.
  apply (scrape_current_page_keeps_rows_before_fault 0 broken_page_driver
           [tr aapl; tr spacer] [aapl; spacer] broken_tr [tr msft]
           WebDriverException).
  - reflexivity.
  - repeat constructor.
  - left. reflexivity.
  - discriminate.
Defined.






(** * Further properties of pagination *)

(** X4. [_has_table_changed] answers [True] exactly when the poll found rows
    and the first of them reads a text other than the fingerprint; a stale
    element never leaves it as an exception. *)
Theorem has_table_changed_spec (old : string) (poll : result (list Row)) :
  (_has_table_changed old poll = Return true <->
   exists r rest t,
     poll = Return (r :: rest) /\ row_text r = Return t /\ t <> old) /\
  _has_table_changed old poll <> Raise StaleElementReferenceException.
Proof.
  split; [split; [apply has_table_changed_true|]|].
  - intros (r & rest & t & -> & Ht & Hne). unfold _has_table_changed. simpl.
    rewrite Ht. simpl. by destruct (String.eqb_spec t old).
  - unfold _has_table_changed.
    destruct poll as [e|[|r rest]]; simpl; [by destruct e|done|].
    destruct (row_text r) as [e|t]; simpl; [by destruct e|done].
Qed.

Lemma has_table_changed_unchanged (old : string) (poll : result (list Row)) :
  unchanged old poll -> quiet (_has_table_changed old poll).
Proof.
  unfold quiet, _has_table_changed.
  intros [->|[->|[->|(r & rest & -> & [Ht|[Ht|Ht]])]]]; simpl;
    try rewrite Ht; simpl; auto.
  rewrite String.eqb_refl. auto.
Qed.

Lemma until_quiet_app (qs rest : list (result bool)) :
  Forall quiet qs -> until (qs ++ rest) = until rest.
Proof.
  induction 1 as [|q qs [->| ->] _ IH]; simpl; auto.
Qed.

Lemma until_unchanged (old : string) (polls : list (result (list Row))) :
  Forall (unchanged old) polls ->
  until (_has_table_changed old <$> polls) = Raise TimeoutException.
Proof.
  intros Hall.
  rewrite <- (app_nil_r (_ <$> polls)), until_quiet_app; [reflexivity|].
  apply Forall_fmap. eapply Forall_impl; [exact Hall|].
  intros poll. apply has_table_changed_unchanged.
Qed.

(** X5. When the first row has a text and no poll of the wait shows another
    first row (the same text, no rows, or a stale or missing element at every
    poll), [go_to_next_page] answers [False], whatever the "next" control
    did. *)
Theorem go_to_next_page_unchanged_is_false
    (d : Driver) (r0 : Row) (rest0 : list Row) (old : string) :
  first_rows (next_view (observe d)) = Return (r0 :: rest0) ->
  row_text r0 = Return old ->
  old <> "" ->
  Forall (unchanged old) (change_polls (next_view (observe d))) ->
  (go_to_next_page d).1 = false.
Proof.
  intros Hrows Htext Hold Hpolls.
  destruct ((go_to_next_page d).1) eqn:Hb; [|reflexivity].
  apply go_to_next_page_true in Hb
    as (rows & fp & btn & H1 & H2 & _ & _ & _ & _ & Hw).
  rewrite Hrows in H1. injection H1 as <-.
  simpl in H2. rewrite Htext in H2. injection H2 as <-.
  unfold wait_for_change, truthy in Hw.
  destruct (String.eqb_spec old "") as [|_]; [done|]. simpl in Hw.
  by rewrite until_unchanged in Hw.
Qed.

Lemma go_to_next_page_unchanged_is_false_witness :
  (go_to_next_page stuck_page_driver).1 = false.
Proof.
  apply (go_to_next_page_unchanged_is_false stuck_page_driver
           (tr aapl) [] (String.concat " " aapl)).
  - reflexivity.
  - reflexivity.
  - discriminate.
  - assert (Hsame : unchanged (String.concat " " aapl) (Return [tr aapl])).
    { right. right. right. exists (tr aapl), []. split; [reflexivity|].
      left. reflexivity. }
    apply Forall_cons_2; [exact Hsame|].
    apply Forall_cons_2; [by left|].
    apply Forall_cons_2; [exact Hsame|]. apply Forall_nil_2.
Defined.

(** X6. When every call succeeds, the control is not disabled, the first row
    has a text, and some poll of the wait reads another first-row text after
    polls that showed no change, [go_to_next_page] answers [True]; what later
    polls would have seen does not matter. *)
Theorem go_to_next_page_changed_is_true
    (d : Driver) (r0 : Row) (rest0 : list Row) (old : string) (btn : Button)
    (before : list (result (list Row))) (r : Row) (rest : list Row)
    (t : string) (later : list (result (list Row))) :
  first_rows (next_view (observe d)) = Return (r0 :: rest0) ->
  row_text r0 = Return old ->
  next_button (next_view (observe d)) = Return btn ->
  is_disabled btn = Return false ->
  scroll_script (next_view (observe d)) = Return tt ->
  click_script (next_view (observe d)) = Return tt ->
  change_polls (next_view (observe d))
  = before ++ Return (r :: rest) :: later ->
  Forall (unchanged old) before ->
  row_text r = Return t ->
  t <> old ->
  (go_to_next_page d).1 = true.
Proof.
  intros Hrows Htext Hbtn Hdis Hscroll Hclick Hpolls Hbefore Ht Hne.
  apply go_to_next_page_true.
  exists (r0 :: rest0), (Some old), btn.
  repeat (split; [assumption || (simpl; by rewrite Htext)|]).
  unfold wait_for_change. destruct (truthy (Some old)); [|reflexivity].
  rewrite Hpolls, fmap_app, until_quiet_app.
  - simpl. unfold _has_table_changed at 1. simpl. rewrite Ht. simpl.
    by destruct (String.eqb_spec t old).
  - apply Forall_fmap. eapply Forall_impl; [exact Hbefore|].
    intros poll. apply has_table_changed_unchanged.
Qed.

Lemma go_to_next_page_changed_is_true_witness :
  (go_to_next_page advancing_driver).1 = true.
Proof.
  apply (go_to_next_page_changed_is_true advancing_driver
           (tr aapl) [tr spacer; tr msft] (String.concat " " aapl)
           {| class_attr := Return (Some "icon-btn") |}
           [Return [tr aapl]] (tr nvda) [] (String.concat " " nvda) []);
    try reflexivity.
  - apply Forall_cons_2; [|apply Forall_nil_2]. right. right. right.
    exists (tr aapl), []. split; [reflexivity|]. left. reflexivity.
  - discriminate.
Defined.

(** X7. When the table has no rows, or its first row reads as the empty
    text, [go_to_next_page] does not wait for any change: as soon as the
    control is found enabled and both scripts ran, it answers [True]. *)
Theorem go_to_next_page_without_fingerprint
    (d : Driver) (rows : list Row) (btn : Button) :
  first_rows (next_view (observe d)) = Return rows ->
  (rows = [] \/ exists r rest, rows = r :: rest /\ row_text r = Return "") ->
  next_button (next_view (observe d)) = Return btn ->
  is_disabled btn = Return false ->
  scroll_script (next_view (observe d)) = Return tt ->
  click_script (next_view (observe d)) = Return tt ->
  (go_to_next_page d).1 = true.
Proof.
  intros Hrows Hfp Hbtn Hdis Hscroll Hclick.
  apply go_to_next_page_true.
  destruct Hfp as [->|(r & rest & -> & Ht)].
  - exists [], None, btn. by repeat split.
  - exists (r :: rest), (Some ""), btn.
    repeat (split; [assumption || (simpl; by rewrite Ht)|]). reflexivity.
Qed.

Lemma go_to_next_page_without_fingerprint_witness :
  (go_to_next_page empty_table_driver).1 = true /\
  change_polls (next_view (observe empty_table_driver)) = [].
Proof.
  split; [|reflexivity].
  apply (go_to_next_page_without_fingerprint empty_table_driver []
           {| class_attr := Return (Some "icon-btn") |}); try reflexivity.
  by left.
Defined.

Lemma prefix_spec (needle : string) :
  forall hay,
    String.prefix needle hay = true <-> exists post, hay = needle +:+ post.
Proof.
  induction needle as [|a needle IH]; intros hay.
  - split; [intros _; by exists hay | by destruct hay].
  - destruct hay as [|b hay]; simpl.
    + split; [done | intros [post Hpost]; discriminate].
    + destruct (Ascii.ascii_dec a b) as [->|Hne].
      * rewrite IH. split; intros [post Hpost]; exists post.
        -- by rewrite Hpost.
        -- by injection Hpost.
      * split; [done | intros [post [= -> _]]; done].
Qed.

(** [needle in hay] holds exactly when [needle] occurs somewhere in [hay]. *)
Lemma contains_spec (needle hay : string) :
  contains needle hay = true <->
  exists pre post, hay = pre +:+ needle +:+ post.
Proof.
  split.
  - induction hay as [|b hay IH].
    + change (contains needle "") with (String.prefix needle "" || false).
      intros [Hp|Hf]%orb_true_iff; [|discriminate].
      apply prefix_spec in Hp as [post ->]. by exists "", post.
    + change (contains needle (String b hay))
        with (String.prefix needle (String b hay) || contains needle hay).
      intros [Hp|Ht]%orb_true_iff.
      * apply prefix_spec in Hp as [post ->]. by exists "", post.
      * destruct (IH Ht) as (pre & post & ->). by exists (String b pre), post.
  - intros (pre & post & ->).
    induction pre as [|b pre IH].
    + assert (Hp : String.prefix needle (needle +:+ post) = true)
        by (apply prefix_spec; eauto).
      change ("" +:+ needle +:+ post) with (needle +:+ post).
      destruct (needle +:+ post);
        [change (contains needle "") with (String.prefix needle "" || false)
        |change (contains needle (String a s))
           with (String.prefix needle (String a s) || contains needle s)];
        by rewrite Hp.
    + change (contains needle (String b pre +:+ needle +:+ post))
        with (String.prefix needle (String b (pre +:+ needle +:+ post))
              || contains needle (pre +:+ needle +:+ post)).
      rewrite IH. apply orb_true_r.
Qed.

(** X8. The "next" control counts as disabled exactly when the text
    "disabled" occurs somewhere in its class attribute, be it inside a longer
    class name; a control without class attribute makes the test raise. *)
Theorem is_disabled_spec (btn : Button) :
  (is_disabled btn = Return true <->
   exists pre post,
     class_attr btn = Return (Some (pre +:+ "disabled" +:+ post))) /\
  (class_attr btn = Return None -> is_disabled btn = Raise TypeError).
Proof.
  unfold is_disabled. split; [split|].
  - destruct (class_attr btn) as [e|[c|]]; simpl; try discriminate.
    intros [= Hc]. apply contains_spec in Hc as (pre & post & ->). eauto.
  - intros (pre & post & ->). simpl. f_equal. apply contains_spec. eauto.
  - by intros ->.
Qed.

(** A class that only mentions the word inside another name ends the
    pagination. *)
Example go_to_next_page_odd_class :
  (go_to_next_page odd_class_driver).1 = false.
Proof. reflexivity. Qed.

(** * Further properties of navigation *)

(** X9. [_wait_for_page_load] lets a timeout of the wait pass, unless the
    current URL cannot be read for the warning; it raises exactly what the
    wait raised otherwise, or what reading the URL raised after a timeout. *)
Theorem wait_for_page_load_spec (p : PageLoad) (e : exn) :
  _wait_for_page_load p = Raise e <->
  (ready_state p = Raise e /\ e <> TimeoutException) \/
  (ready_state p = Raise TimeoutException /\ current_url p = Raise e).
Proof.
  unfold _wait_for_page_load.
  destruct (ready_state p) as [e0|[]] eqn:Hready.
  - destruct e0; simpl;
      try (split; [intros [= <-]; by left
                  | intros [[[= <-] _]|[[=] _]]; reflexivity]).
    destruct (current_url p) as [e1|url]; simpl.
    + split; [intros [= <-]; by right | intros [[[= <-] Hne]|[_ [= <-]]]; done].
    + split; [done | intros [[[= <-] Hne]|[_ [=]]]; done].
  - split; [done | intros [[[=] _]|[[=] _]]].
Qed.




(** * Further properties of the run *)

(** X11. When the navigation raises, whatever it raises, the caller's loop
    gets no tuple and no exception: the run is over at the first [next], the
    browser has been quit once, the only new list object is the empty
    accumulator, and the caller is left with its empty [data]. *)
Theorem run_navigation_fault (n fuel : nat) (s : State) (e : exn) :
  (navigate_to_most_active (drv s)).1 = Raise e ->
  exists g,
    consume (S n) fuel (run s) = ([], Completed, g) /\
    quit_calls (drv (st g)) = S (quit_calls (drv s)) /\
    session_open (drv (st g)) = false /\
    heap (st g) = heap s ++ [[]] /\
    final_data (consume (S n) fuel (run s)) = [].
Proof.
  intros Hnav. unfold navigate_to_most_active in Hnav. simpl in Hnav.
  unfold final_data. simpl. unfold gen_next, navigate_to_most_active. simpl.
  rewrite Hnav. unfold finish. rewrite close_spec. simpl.
  eexists. by repeat split.
Qed.

Lemma run_navigation_fault_witness :
  exists g,
    consume 1 0 (run (new_state no_markets_menu)) = ([], Completed, g) /\
    quit_calls (drv (st g)) = 1 /\
    heap (st g) = [[]].
Proof.
  destruct (run_navigation_fault 0 0 (new_state no_markets_menu)
              TimeoutException) as (g & Hrun & Hq & _ & Hh & _).
  - reflexivity.
  - exists g. repeat split; assumption.
Defined.

(** A tuple comes out of a [next] with the generator suspended, carries the
    accumulator, and counts it. *)
Lemma gen_next_Yield (fuel : nat) (g : Gen) (ev : RunProgress) (g' : Gen) :
  gen_next fuel g = (Yield ev, g') ->
  pc g' = Suspended /\ rowsSoFar ev = all_data g' /\
  cumulativeRowCount ev = length (deref (heap (st g')) (all_data g')).
Proof.
  assert (Hloop : forall g1, loop_body fuel g1 = (Yield ev, g') ->
             pc g' = Suspended /\ rowsSoFar ev = all_data g' /\
             cumulativeRowCount ev
             = length (deref (heap (st g')) (all_data g'))).
  { intros g1 Hrun.
    destruct (loop_body_spec fuel g1)
      as [Hdiv|(ev1 & g2 & Hy & H1 & H2 & _ & _ & H5 & _ & H7 & _)];
      [congruence|].
    rewrite Hy in Hrun. injection Hrun as <- <-.
    by rewrite H2, H5. }
  assert (Hfin : forall g1, finish g1 <> (Yield ev, g')).
  { intros g1. destruct (finish_spec g1) as (g2 & -> & _). discriminate. }
  unfold gen_next. destruct (pc g).
  - simpl. destruct (navigate_try _); [intros H; by destruct (Hfin _ H)|].
    apply Hloop.
  - destruct (go_to_next_page (drv (st g))) as [[|] d1].
    + apply Hloop.
    + intros H. by destruct (Hfin _ H).
  - discriminate.
Qed.

Lemma loop_body_keeps (h0 : Heap) (fuel : nat) (g : Gen) (sig : Signal)
    (g' : Gen) :
  keeps h0 g -> all_data g = length h0 ->
  loop_body fuel g = (sig, g') ->
  keeps h0 g' /\ all_data g' = length h0 /\
  (forall ev, sig = Yield ev -> pc g' = Suspended).
Proof.
  unfold keeps, loop_body. intros Hkeep Hl.
  destruct (scrape_current_page fuel (drv (st g))) as [[data d]|].
  - intros [= <- <-]. simpl. repeat split; try assumption.
    unfold extend. rewrite take_insert_ge by lia. exact Hkeep.
  - intros [= <- <-]. repeat split; try assumption. discriminate.
Qed.

Lemma finish_keeps (h0 : Heap) (g : Gen) (sig : Signal) (g' : Gen) :
  keeps h0 g -> finish g = (sig, g') ->
  keeps h0 g' /\ forall ev, sig <> Yield ev.
Proof.
  unfold keeps, finish. rewrite close_spec. intros Hkeep [= <- <-].
  split; [exact Hkeep | discriminate].
Qed.

Lemma gen_next_keeps (h0 : Heap) (fuel : nat) (g : Gen) (sig : Signal)
    (g' : Gen) :
  runs_on h0 g -> gen_next fuel g = (sig, g') ->
  keeps h0 g' /\ (forall ev, sig = Yield ev -> runs_on h0 g').
Proof.
  intros (Hkeep & Hnew & Hacc). unfold gen_next.
  destruct (pc g) eqn:Hpc.
  - rewrite (Hnew eq_refl). unfold alloc, navigate_to_most_active.
    destruct (navigate_try _) as [e|[]]; intros Hrun.
    + apply finish_keeps with (h0 := h0) in Hrun as [Hk Hny];
        [|unfold keeps; simpl; apply take_app_length].
      split; [exact Hk|]. intros ev ->. by destruct (Hny ev).
    + apply loop_body_keeps with (h0 := h0) in Hrun as (Hk & Hl & Hs);
        [|unfold keeps; simpl; apply take_app_length | reflexivity].
      split; [exact Hk|]. intros ev Hev.
      split; [exact Hk|]. split; [|by intros _].
      intros Hc. rewrite (Hs ev Hev) in Hc. discriminate.
  - destruct (go_to_next_page (drv (st g))) as [[|] d1]; intros Hrun.
    + apply loop_body_keeps with (h0 := h0) in Hrun as (Hk & Hl & Hs);
        [|exact Hkeep | simpl; by apply Hacc].
      split; [exact Hk|]. intros ev Hev.
      split; [exact Hk|]. split; [|by intros _].
      intros Hc. rewrite (Hs ev Hev) in Hc. discriminate.
    + apply finish_keeps with (h0 := h0) in Hrun as [Hk Hny];
        [|exact Hkeep].
      split; [exact Hk|]. intros ev ->. by destruct (Hny ev).
  - intros [= <- <-]. split; [exact Hkeep | discriminate].
Qed.

(** X12. A run leaves every list object alone that existed when it began:
    at each tuple and at the end, the objects of the initial heap are what
    they were, and the list that every tuple carries is a new object. *)
Theorem run_keeps_other_lists (n fuel : nat) (s : State) :
  Forall (fun x => rowsSoFar x.1 = length (heap s) /\
                   take (length (heap s)) (heap (st x.2)) = heap s)
         (consume n fuel (run s)).1.1 /\
  take (length (heap s)) (heap (st (consume n fuel (run s)).2)) = heap s.
Proof.
  assert (Hstart : runs_on (heap s) (run s)).
  { repeat split; [apply firstn_all | done]. }
  revert Hstart. generalize (run s). revert n.
  induction n as [|n IH]; intros g Hg; simpl.
  - split; [constructor | apply Hg].
  - destruct (gen_next fuel g) as [sig g1] eqn:Hnext.
    destruct (gen_next_keeps _ _ _ _ _ Hg Hnext) as [Hk Hy].
    destruct sig as [ev| | |]; try (split; [constructor | exact Hk]).
    pose proof (Hy ev eq_refl) as Hg1.
    destruct (IH g1 Hg1) as [Hall Hfin].
    destruct (consume n fuel g1) as [[evs status] g2]. simpl in *.
    split; [|exact Hfin]. constructor; [|exact Hall]. simpl.
    split; [|exact Hk].
    destruct (gen_next_Yield _ _ _ _ Hnext) as (Hpc & -> & _).
    apply Hg1. by rewrite Hpc.
Qed.

(** A caller that holds a list of its own finds it unchanged after a run
    over three pages. *)
Example run_keeps_caller_list :
  forall rr : RawRow,
    deref (heap (st (consume 4 1
                       (run {| drv := new_driver three_pages;
                               heap := [[rr]] |})).2)) 0 = [rr].
Proof. reflexivity. Qed.

Lemma consume_nil_heap (fuel n : nat) (g : Gen) (status : Status) (g' : Gen) :
  pc g = Suspended ->
  consume n fuel g = ([], status, g') ->
  heap (st g') = heap (st g).
Proof.
  intros Hpc. destruct n as [|n]; simpl; [by intros [= _ <-]|].
  unfold gen_next. rewrite Hpc.
  destruct (go_to_next_page (drv (st g))) as [[|] d1].
  - unfold loop_body. simpl.
    destruct (scrape_current_page fuel d1) as [[data d2]|].
    + destruct (consume n fuel _) as [[evs st1] g2]. discriminate.
    + by intros [= _ <-].
  - unfold finish. rewrite close_spec. by intros [= _ <-].
Qed.

Lemma consume_last_heap (fuel n : nat) :
  forall g evs status g' ev gi,
    consume n fuel g = (evs, status, g') ->
    last evs = Some (ev, gi) ->
    heap (st g') = heap (st gi).
Proof.
  induction n as [|n IH]; intros g evs status g' ev gi; simpl;
    [by intros [= <- _ _]|].
  destruct (gen_next fuel g) as [sig g1] eqn:Hnext.
  destruct sig as [ev1| | |]; try by intros [= <- _ _].
  destruct (consume n fuel g1) as [[evs1 status1] g2] eqn:Hrest.
  intros [= <- <- <-] Hlast.
  destruct evs1 as [|x evs1].
  - injection Hlast as <- <-.
    destruct (gen_next_Yield _ _ _ _ Hnext) as (Hpc & _).
    by eapply consume_nil_heap.
  - rewrite last_cons_cons in Hlast. by eapply IH.
Qed.

(** X13. What the caller holds when its loop is over is the list of the last
    tuple as it was handed over, and it has as many rows as that tuple
    counted: nothing touches the accumulator after the last [yield]. *)
Theorem final_data_is_last_tuple
    (n fuel : nat) (s : State) (ev : RunProgress) (gi : Gen) :
  last (consume n fuel (run s)).1.1 = Some (ev, gi) ->
  final_data (consume n fuel (run s)) = deref (heap (st gi)) (rowsSoFar ev) /\
  length (final_data (consume n fuel (run s))) = cumulativeRowCount ev.
Proof.
  intros Hlast. unfold final_data. rewrite Hlast.
  destruct (consume n fuel (run s)) as [[evs status] g] eqn:Hrun.
  simpl in *.
  rewrite (consume_last_heap _ _ _ _ _ _ _ _ Hrun Hlast).
  split; [reflexivity|].
  destruct (run_spec _ _ _ _ _ _ Hrun) as (Hp & _ & _).
  apply progress_from_Forall in Hp.
  apply last_Some_elem_of in Hlast.
  destruct (proj1 (Forall_forall _ _) Hp _ Hlast) as [Hcount _].
  simpl in Hcount. by rewrite Hcount.
Qed.

Lemma final_data_is_last_tuple_witness :
  length (final_data (consume 4 1 (run (new_state three_pages)))) = 3.
Proof.
  destruct (last (consume 4 1 (run (new_state three_pages))).1.1)
    as [[ev gi]|] eqn:Hlast; [|discriminate].
  destruct (final_data_is_last_tuple 4 1 (new_state three_pages) ev gi Hlast)
    as [_ ->].
  by injection Hlast as <- _.
Defined.

Lemma progress_from_prefix p prev q l evs :
  progress_from p prev q l evs ->
  forall i a b,
    evs !! i = Some a -> evs !! S i = Some b ->
    rowsSoFar a.1 = rowsSoFar b.1 /\
    deref (heap (st a.2)) (rowsSoFar a.1)
      `prefix_of` deref (heap (st b.2)) (rowsSoFar b.1).
Proof.
  revert p prev. induction evs as [|[ev g] evs IH]; intros p prev; simpl;
    [done|].
  intros (_ & Hl & _ & _ & _ & Hrest) i a b Ha Hb.
  destruct i as [|i]; [|by eapply IH].
  injection Ha as <-.
  destruct evs as [|[ev' g'] evs]; [discriminate|].
  injection Hb as <-. destruct Hrest as (_ & Hl' & Hpre & _). simpl.
  by rewrite Hl, Hl'.
Qed.

(** X14. From one tuple to the next the accumulator only grows at its end:
    both tuples carry the same list object, and what it held when the earlier
    tuple was handed over is the beginning of what it holds when the later
    one is.  No row is removed, replaced or moved. *)
Theorem run_accumulator_grows (n fuel : nat) (s : State) :
  forall i a b,
    (consume n fuel (run s)).1.1 !! i = Some a ->
    (consume n fuel (run s)).1.1 !! S i = Some b ->
    rowsSoFar a.1 = rowsSoFar b.1 /\
    deref (heap (st a.2)) (rowsSoFar a.1)
      `prefix_of` deref (heap (st b.2)) (rowsSoFar b.1).
Proof.
  destruct (consume n fuel (run s)) as [[evs status] g] eqn:Hrun.
  destruct (run_spec _ _ _ _ _ _ Hrun) as (Hp & _ & _). simpl.
  by eapply progress_from_prefix.
Qed.

Lemma run_accumulator_grows_witness :
  exists a b,
    (consume 4 1 (run (new_state three_pages))).1.1 !! 1 = Some a /\
    (consume 4 1 (run (new_state three_pages))).1.1 !! 2 = Some b /\
    length (deref (heap (st a.2)) (rowsSoFar a.1)) = 2 /\
    deref (heap (st a.2)) (rowsSoFar a.1)
      `prefix_of` deref (heap (st b.2)) (rowsSoFar b.1).
Proof.
  destruct ((consume 4 1 (run (new_state three_pages))).1.1 !! 1)
    as [a|] eqn:Ha; [|discriminate].
  destruct ((consume 4 1 (run (new_state three_pages))).1.1 !! 2)
    as [b|] eqn:Hb; [|discriminate].
  exists a, b. split; [reflexivity|]. split; [reflexivity|].
  split; [by injection Ha as <-|].
  exact (proj2 (run_accumulator_grows 4 1 (new_state three_pages) 1 a b Ha Hb)).
Defined.

(** X15. The progress value that [app.py] computes from the page number of a
    tuple stays between 10 and 90, so within the range of the progress bar,
    and never goes back from one tuple to the next. *)
Theorem progress_in_range (n fuel : nat) (s : State) :
  Forall (fun ev => 10 <= progress (pageNumber ev) <= 90)
         (consume n fuel (run s)).1.1.*1 /\
  (forall i a b,
      (consume n fuel (run s)).1.1.*1 !! i = Some a ->
      (consume n fuel (run s)).1.1.*1 !! S i = Some b ->
      progress (pageNumber a) <= progress (pageNumber b)).
Proof.
  destruct (consume n fuel (run s)) as [[evs status] g] eqn:Hrun.
  destruct (run_spec _ _ _ _ _ _ Hrun) as (Hp & _ & _). simpl.
  apply progress_from_pages in Hp.
  assert (Hpage : forall i ev, evs.*1 !! i = Some ev -> pageNumber ev = S i).
  { intros i ev Hev.
    assert (H : (pageNumber <$> evs.*1) !! i = Some (pageNumber ev))
      by (by rewrite list_lookup_fmap, Hev).
    rewrite Hp in H. apply lookup_seq in H as [-> _]. reflexivity. }
  unfold progress. split.
  - apply Forall_lookup. intros i ev Hev. rewrite (Hpage _ _ Hev). lia.
  - intros i a b Ha Hb. rewrite (Hpage _ _ Ha), (Hpage _ _ Hb). lia.
Qed.

(** The progress values over the listing of three pages. *)
Example three_pages_progress :
  (fun ev => progress (pageNumber ev))
    <$> (consume 4 1 (run (new_state three_pages))).1.1.*1 = [10; 20; 30].
Proof. reflexivity. Qed.

Lemma deref_extend_Forall (P : RawRow -> Prop) (h : Heap) (l : loc)
    (ys : list RawRow) :
  Forall P (deref h l) -> Forall P ys -> Forall P (deref (extend h l ys) l).
Proof.
  intros Hold Hnew. unfold extend.
  destruct (decide (l < length h)) as [Hlt|Hge].
  - unfold deref at 1. rewrite list_lookup_insert_eq by assumption. simpl.
    apply Forall_app. by split.
  - by rewrite list_insert_ge by lia.
Qed.

Lemma gen_next_well_formed (fuel : nat) (g : Gen) (sig : Signal) (g' : Gen) :
  (pc g = Created \/ Forall well_formed (deref (heap (st g)) (all_data g))) ->
  gen_next fuel g = (sig, g') ->
  Forall well_formed (deref (heap (st g')) (all_data g')).
Proof.
  assert (Hloop : forall g1,
             Forall well_formed (deref (heap (st g1)) (all_data g1)) ->
             loop_body fuel g1 = (sig, g') ->
             Forall well_formed (deref (heap (st g')) (all_data g'))).
  { intros g1 Hg1. unfold loop_body.
    destruct (scrape_current_page fuel (drv (st g1))) as [[data d]|] eqn:Hs.
    - intros [= <- <-]. simpl. apply deref_extend_Forall; [exact Hg1|].
      destruct (scrape_current_page_inv _ _ _ _ Hs) as (k & _ & _ & _ & -> & _).
      apply scrape_attempt_well_formed.
    - by intros [= <- <-]. }
  assert (Hfin : forall g1,
             Forall well_formed (deref (heap (st g1)) (all_data g1)) ->
             finish g1 = (sig, g') ->
             Forall well_formed (deref (heap (st g')) (all_data g'))).
  { intros g1 Hg1. unfold finish. rewrite close_spec. by intros [= <- <-]. }
  intros Hg. unfold gen_next. destruct (pc g) eqn:Hpc.
  - unfold navigate_to_most_active.
    pose proof (deref_alloc (heap (st g))) as Hnil.
    destruct (alloc (heap (st g))) as [l h]. simpl in Hnil.
    destruct (navigate_try _) as [e|[]].
    + apply Hfin. simpl. rewrite Hnil. constructor.
    + apply Hloop. simpl. rewrite Hnil. constructor.
  - destruct Hg as [Hc|Hg]; [discriminate|].
    destruct (go_to_next_page (drv (st g))) as [[|] d1].
    + by apply Hloop.
    + by apply Hfin.
  - destruct Hg as [Hc|Hg]; [discriminate|]. by intros [= <- <-].
Qed.

Lemma consume_well_formed (fuel n : nat) :
  forall g,
    (pc g = Created \/ Forall well_formed (deref (heap (st g)) (all_data g))) ->
    Forall (fun x => Forall well_formed
                       (deref (heap (st x.2)) (rowsSoFar x.1)))
           (consume n fuel g).1.1.
Proof.
  induction n as [|n IH]; intros g Hg; simpl; [constructor|].
  destruct (gen_next fuel g) as [sig g1] eqn:Hnext.
  pose proof (gen_next_well_formed _ _ _ _ Hg Hnext) as Hg1.
  destruct sig as [ev| | |]; try constructor.
  specialize (IH g1 (or_intror Hg1)).
  destruct (consume n fuel g1) as [[evs status] g2]. simpl in *.
  constructor; [|exact IH]. simpl.
  destruct (gen_next_Yield _ _ _ _ Hnext) as (_ & -> & _). exact Hg1.
Qed.

(** X16. Every row of every list that a run hands over, and every row the
    caller holds when its loop is over, has exactly the seven keys, with
    values free of white space at both ends: the columns that [clean_data]
    reads are always there. *)
Theorem run_data_well_formed (n fuel : nat) (s : State) :
  Forall (fun x => Forall well_formed (deref (heap (st x.2)) (rowsSoFar x.1)))
         (consume n fuel (run s)).1.1 /\
  Forall well_formed (final_data (consume n fuel (run s))).
Proof.
  pose proof (consume_well_formed fuel n (run s) (or_introl eq_refl)) as Hall.
  split; [exact Hall|].
  unfold final_data.
  destruct (last (consume n fuel (run s)).1.1) as [[ev gi]|] eqn:Hlast;
    [|constructor].
  destruct (consume n fuel (run s)) as [[evs status] g] eqn:Hrun.
  simpl in *.
  rewrite (consume_last_heap _ _ _ _ _ _ _ _ Hrun Hlast).
  apply last_Some_elem_of in Hlast.
  exact (proj1 (Forall_forall _ _) Hall _ Hlast).
Qed.

(** The three rows collected over the listing of three pages. *)
Example three_pages_symbols :
  (fun rr : RawRow => rr !! "symbol")
    <$> final_data (consume 4 1 (run (new_state three_pages)))
  = [Some "AAPL"; Some "MSFT"; Some "NVDA"].
Proof. reflexivity. Qed.

Lemma deref_extend_alloc (h : Heap) (ys : list RawRow) :
  deref (extend (h ++ [[]]) (length h) ys) (length h) = ys.
Proof.
  unfold extend, deref.
  rewrite list_lookup_insert_eq by (rewrite length_app; simpl; lia).
  simpl. by rewrite lookup_app_r, Nat.sub_diag by lia.
Qed.

(** X17. A listing of one page: when the navigation succeeds, the first
    extraction attempt meets no stale element and [go_to_next_page] then
    reports no further page, the caller gets exactly one tuple, numbered 1
    and counting the rows of that attempt, holds these rows when its loop is
    over, and the browser has been quit once. *)
Theorem run_single_page (n fuel : nat) (s : State) :
  (navigate_to_most_active (drv s)).1 = Return tt ->
  (attempt_at (advance (drv s)) 0).2 <> Some StaleElementReferenceException ->
  (go_to_next_page (advance (advance (drv s)))).1 = false ->
  exists ev g1 g,
    consume (S (S n)) (S fuel) (run s) = ([(ev, g1)], Completed, g) /\
    pageNumber ev = 1 /\
    cumulativeRowCount ev = length (attempt_at (advance (drv s)) 0).1 /\
    final_data (consume (S (S n)) (S fuel) (run s))
    = (attempt_at (advance (drv s)) 0).1 /\
    quit_calls (drv (st g)) = S (quit_calls (drv s)) /\
    session_open (drv (st g)) = false.
Proof.
  intros Hnav Hfresh Hnext.
  assert (Hscrape : scrape_current_page (S fuel) (advance (drv s))
                    = Some ((attempt_at (advance (drv s)) 0).1,
                            advance (advance (drv s)))).
  { rewrite scrape_current_page_step.
    destruct (attempt_at (advance (drv s)) 0) as [data [e|]]; [|reflexivity].
    destruct e; try reflexivity. by destruct Hfresh. }
  unfold navigate_to_most_active in Hnav. simpl in Hnav.
  assert (Hfirst : gen_next (S fuel) (run s)
            = (Yield {| pageNumber := 1;
                        cumulativeRowCount
                        := length (attempt_at (advance (drv s)) 0).1;
                        rowsSoFar := length (heap s) |},
               {| pc := Suspended; all_data := length (heap s); page_num := 1;
                  st := {| drv := advance (advance (drv s));
                           heap := extend (heap s ++ [[]]) (length (heap s))
                                     (attempt_at (advance (drv s)) 0).1 |} |})).
  { unfold gen_next, run, navigate_to_most_active, alloc.
    cbn [pc st drv heap all_data page_num].
    rewrite Hnav. unfold loop_body. cbn [pc st drv heap all_data page_num].
    rewrite Hscrape. by rewrite deref_extend_alloc. }
  set (ev := {| pageNumber := 1;
                cumulativeRowCount
                := length (attempt_at (advance (drv s)) 0).1;
                rowsSoFar := length (heap s) |}) in *.
  set (h1 := extend (heap s ++ [[]]) (length (heap s))
               (attempt_at (advance (drv s)) 0).1) in *.
  set (g1 := {| pc := Suspended; all_data := length (heap s); page_num := 1;
                st := {| drv := advance (advance (drv s)); heap := h1 |} |})
    in *.
  set (g := {| pc := Finished; all_data := length (heap s); page_num := 1;
               st := {| drv := {| tick := S (S (S (S (tick (drv s)))));
                                  world := world (drv s);
                                  session_open := false;
                                  quit_calls := S (quit_calls (drv s)) |};
                        heap := h1 |} |}).
  assert (Hsecond : gen_next (S fuel) g1 = (StopIteration, g)).
  { unfold gen_next, g1. cbn [pc st drv heap all_data page_num].
    destruct (go_to_next_page (advance (advance (drv s)))) as [b d2] eqn:Hgo.
    simpl in Hnext. subst b.
    assert (d2 = advance (advance (advance (drv s)))) as ->
      by (by injection Hgo).
    unfold finish. by rewrite close_spec. }
  assert (Hrun : consume (S (S n)) (S fuel) (run s)
                 = ([(ev, g1)], Completed, g)).
  { change (consume (S (S n)) (S fuel) (run s))
      with (match gen_next (S fuel) (run s) with
            | (Yield ev, g') =>
                let '(evs, status, g'') := consume (S n) (S fuel) g' in
                ((ev, g') :: evs, status, g'')
            | (StopIteration, g') => ([], Completed, g')
            | (Raised e, g') => ([], Escaped e, g')
            | (Diverges, g') => ([], Stuck, g')
            end).
    rewrite Hfirst.
    change (consume (S n) (S fuel) g1)
      with (match gen_next (S fuel) g1 with
            | (Yield ev, g') =>
                let '(evs, status, g'') := consume n (S fuel) g' in
                ((ev, g') :: evs, status, g'')
            | (StopIteration, g') => ([], Completed, g')
            | (Raised e, g') => ([], Escaped e, g')
            | (Diverges, g') => ([], Stuck, g')
            end).
    by rewrite Hsecond. }
  rewrite Hrun. exists ev, g1, g. split; [reflexivity|].
  repeat split. unfold final_data. simpl. apply deref_extend_alloc.
Qed.

Lemma run_single_page_witness :
  exists ev g1 g,
    consume 2 1 (run {| drv := scenario_driver; heap := [] |})
    = ([(ev, g1)], Completed, g) /\
    pageNumber ev = 1 /\ cumulativeRowCount ev = 2 /\
    quit_calls (drv (st g)) = 1.
Proof.
  destruct (run_single_page 0 0 {| drv := scenario_driver; heap := [] |})
    as (ev & g1 & g & Hrun & Hp & Hc & _ & Hq & _).
  - reflexivity.
  - discriminate.
  - reflexivity.
  - exists ev, g1, g. repeat split; assumption.
Defined.
